(** * Sustainity dashboard: the tabular data pipeline

    A shallow embedding of the data transformations of the dashboard
    ([components/ChartView.tsx], [components/DataTable.tsx],
    [pages/index.tsx]): record sanitisation, the numeric chart summary, the
    table filter and sort, and the CSV export handler.

    The components are written against ECMAScript built-ins ([String],
    [Number], [typeof], [JSON.stringify], [String.prototype.toLowerCase],
    [String.prototype.includes], [Array.prototype.sort]).  Module [Js]
    models the fragment of the language they rely on; the later modules
    follow the components line by line. *)

From Stdlib Require Import List NArith ZArith Bool Ascii String Floats Lia.
From Stdlib Require Import DecimalString DecimalPos DecimalN Permutation Sorted.
Import ListNotations.

Set Implicit Arguments.

(* ===================================================================== *)
(** * The ECMAScript fragment *)
(* ===================================================================== *)

Module Js.

Local Open Scope N_scope.

(** ** Strings

    A string value is a finite sequence of UTF-16 code units. *)

Definition JsString := list N.

(** [str] reads an ASCII literal as a string value. *)
Definition str (s : string) : JsString :=
  map N_of_ascii (list_ascii_of_string s).

Fixpoint jsstr_eqb (a b : JsString) : bool :=
  match a, b with
  | [], [] => true
  | x :: a', y :: b' => (x =? y) && jsstr_eqb a' b'
  | _, _ => false
  end.

Definition in_range (lo hi c : N) : bool := (lo <=? c) && (c <=? hi).

(** *** [String.prototype.toLowerCase]

    The Unicode default case conversion, over the repertoire U+0000 to
    U+00FF (Basic Latin and Latin-1), U+0370 to U+03FF (Greek and Coptic)
    and U+0400 to U+045F (Cyrillic); code units outside it are left as
    they are.  The one context-sensitive rule of the language-independent
    mapping is modelled: a capital sigma becomes a final sigma when it is
    preceded by a cased letter and not followed by one (case-ignorable
    characters in between are skipped). *)

Definition CAPITAL_SIGMA : N := 0x3A3.
Definition SMALL_SIGMA : N := 0x3C3.
Definition SMALL_FINAL_SIGMA : N := 0x3C2.

(** The simple lower-case mapping of a code unit.  In the Greek and Coptic
    block: the archaic letters U+0370, U+0372, U+0376 and the letters
    U+03D8 to U+03EE at even positions precede their small forms; the
    capitals with tonos U+0386, U+0388 to U+038A, U+038C, U+038E, U+038F
    map to U+03AC to U+03AF and U+03CC to U+03CE; U+0391 to U+03AB (with
    the dialytika forms) map 32 places up; the symbols U+037F, U+03CF,
    U+03F4, U+03F7, U+03F9, U+03FA and U+03FD to U+03FF have their own
    targets; the hook upsilons U+03D2 to U+03D4 have none. *)
Definition lower_unit (c : N) : N :=
  if in_range 0x41 0x5A c then c + 32
  else if in_range 0xC0 0xDE c && negb (c =? 0xD7) then c + 32
  else if (c =? 0x370) || (c =? 0x372) || (c =? 0x376) then c + 1
  else if c =? 0x37F then 0x3F3
  else if c =? 0x386 then 0x3AC
  else if in_range 0x388 0x38A c then c + 37
  else if c =? 0x38C then 0x3CC
  else if in_range 0x38E 0x38F c then c + 63
  else if in_range 0x391 0x3AB c && negb (c =? 0x3A2) then c + 32
  else if c =? 0x3CF then 0x3D7
  else if (c =? 0x3D8) || (c =? 0x3DA) || (c =? 0x3DC) || (c =? 0x3DE)
          || (c =? 0x3E0) || (c =? 0x3E2) || (c =? 0x3E4) || (c =? 0x3E6)
          || (c =? 0x3E8) || (c =? 0x3EA) || (c =? 0x3EC) || (c =? 0x3EE)
       then c + 1
  else if c =? 0x3F4 then 0x3B8
  else if c =? 0x3F7 then 0x3F8
  else if c =? 0x3F9 then 0x3F2
  else if c =? 0x3FA then 0x3FB
  else if in_range 0x3FD 0x3FF c then c - 130
  else if in_range 0x410 0x42F c then c + 32
  else if in_range 0x400 0x40F c then c + 80
  else c.

(** The letters with a case: upper-case, lower-case, or of the other
    lower-case kind (the ordinal indicators, the ypogegrammeni). *)
Definition is_cased (c : N) : bool :=
  in_range 0x41 0x5A c || in_range 0x61 0x7A c
  || (c =? 0xAA) || (c =? 0xB5) || (c =? 0xBA)
  || (in_range 0xC0 0xFF c && negb (c =? 0xD7) && negb (c =? 0xF7))
  || in_range 0x370 0x373 c || in_range 0x376 0x377 c
  || in_range 0x37A 0x37D c || (c =? 0x37F)
  || (c =? 0x386) || in_range 0x388 0x38A c || (c =? 0x38C)
  || in_range 0x38E 0x3A1 c
  || in_range 0x3A3 0x3F5 c
  || in_range 0x3F7 0x3FF c
  || in_range 0x400 0x45F c.

(** Apostrophe, full stop, colon, the spacing accents, the soft hyphen,
    the middle dots, the Greek numeral signs, ypogegrammeni and tonos, the
    combining marks U+0300 to U+036F and the right single quotation
    mark. *)
Definition is_case_ignorable (c : N) : bool :=
  (c =? 0x27) || (c =? 0x2E) || (c =? 0x3A) || (c =? 0x5E) || (c =? 0x60)
  || (c =? 0xA8) || (c =? 0xAD) || (c =? 0xAF) || (c =? 0xB4)
  || (c =? 0xB7) || (c =? 0xB8) || in_range 0x300 0x36F c
  || (c =? 0x374) || (c =? 0x375) || (c =? 0x37A)
  || (c =? 0x384) || (c =? 0x385) || (c =? 0x387)
  || (c =? 0x2019).

(** The first code unit of [s] that is not case-ignorable is cased. *)
Fixpoint cased_next (s : JsString) : bool :=
  match s with
  | [] => false
  | c :: s' => if is_case_ignorable c then cased_next s' else is_cased c
  end.

(** [before] is the text to the left of the sigma, nearest unit first. *)
Definition final_sigma (before after : JsString) : bool :=
  cased_next before && negb (cased_next after).

Fixpoint lower_from (before s : JsString) : JsString :=
  match s with
  | [] => []
  | c :: rest =>
      (if c =? CAPITAL_SIGMA
       then if final_sigma before rest then SMALL_FINAL_SIGMA else SMALL_SIGMA
       else lower_unit c)
      :: lower_from (c :: before) rest
  end.

Definition toLowerCase (s : JsString) : JsString := lower_from [] s.

(** *** [String.prototype.includes] *)

Fixpoint startsWith (s p : JsString) : bool :=
  match p, s with
  | [], _ => true
  | _ :: _, [] => false
  | a :: p', b :: s' => (a =? b) && startsWith s' p'
  end.

Fixpoint includes (s sub : JsString) : bool :=
  startsWith s sub
  || match s with
     | [] => false
     | _ :: s' => includes s' sub
     end.

(** Decimal rendering of a natural number, as in template literals and
    index keys. *)
Definition decimal (n : N) : JsString :=
  str (NilZero.string_of_uint (N.to_uint n)).

(** ** Numbers

    A Number is an IEEE 754 binary64 value. *)

Definition JsNumber := float.

Definition isNaN (x : JsNumber) : bool := PrimFloat.is_nan x.

(** The Number nearest to the rational [n / d] (round to nearest, ties to
    even), negated when [neg]. *)
Definition round_ratio (neg : bool) (n d : positive) : JsNumber :=
  SF2Prim (SFdiv prec emax (S754_finite neg n 0) (S754_finite false d 0)).

Definition pow10 (e : Z) : positive := Z.to_pos (10 ^ e).

(** The Number nearest to [m * 10^e]; magnitudes far outside the binary64
    range are settled without building the power of ten. *)
Definition decimal_to_number (neg : bool) (m : N) (e : Z) : JsNumber :=
  match m with
  | N0 => if neg then (-0)%float else 0%float
  | Npos p =>
      let magnitude := (Z.of_nat (List.length (decimal m)) + e)%Z in
      if (400 <? magnitude)%Z then (if neg then neg_infinity else infinity)
      else if (magnitude <? -400)%Z then (if neg then (-0)%float else 0%float)
      else if (0 <=? e)%Z then round_ratio neg (p * pow10 e)%positive 1
      else round_ratio neg p (pow10 (- e))
  end.

(** *** [Number(string)]: the StringToNumber conversion

    The whole trimmed text must be a numeric literal: a signed decimal
    literal (digits, fraction, exponent, or [Infinity]) or an unsigned
    hexadecimal, octal or binary integer literal.  The empty text is [+0];
    anything else is [NaN]. *)

Definition is_whitespace (c : N) : bool :=
  in_range 0x9 0xD c || (c =? 0x20) || (c =? 0xA0) || (c =? 0x1680)
  || in_range 0x2000 0x200A c || (c =? 0x2028) || (c =? 0x2029)
  || (c =? 0x202F) || (c =? 0x205F) || (c =? 0x3000) || (c =? 0xFEFF).

Fixpoint trim_start (s : JsString) : JsString :=
  match s with
  | [] => []
  | c :: s' => if is_whitespace c then trim_start s' else s
  end.

Definition trim (s : JsString) : JsString :=
  rev (trim_start (rev (trim_start s))).

Definition digit_value (radix c : N) : option N :=
  let v :=
    if in_range 0x30 0x39 c then Some (c - 0x30)
    else if in_range 0x61 0x7A c then Some (c - 0x61 + 10)
    else if in_range 0x41 0x5A c then Some (c - 0x41 + 10)
    else None in
  match v with
  | Some d => if d <? radix then Some d else None
  | None => None
  end.

(** Reads the longest run of digits at the front of [s]: the value read on
    top of [acc], the number of digits, and the rest of the text. *)
Fixpoint read_digits (radix acc : N) (count : nat) (s : JsString)
  : N * nat * JsString :=
  match s with
  | [] => (acc, count, [])
  | c :: s' =>
      match digit_value radix c with
      | Some d => read_digits radix (acc * radix + d) (S count) s'
      | None => (acc, count, s)
      end
  end.

Definition read_sign (s : JsString) : bool * JsString :=
  match s with
  | c :: s' =>
      if c =? 0x2D then (true, s') else if c =? 0x2B then (false, s') else (false, s)
  | [] => (false, [])
  end.

Definition radix_of_prefix (c : N) : option N :=
  if (c =? 0x78) || (c =? 0x58) then Some 16
  else if (c =? 0x6F) || (c =? 0x4F) then Some 8
  else if (c =? 0x62) || (c =? 0x42) then Some 2
  else None.

Definition parse_nondecimal (s : JsString) : option JsNumber :=
  match s with
  | z :: p :: digits =>
      if z =? 0x30 then
        match radix_of_prefix p with
        | Some radix =>
            match read_digits radix 0 0 digits with
            | (v, S _, []) => Some (decimal_to_number false v 0)
            | _ => None
            end
        | None => None
        end
      else None
  | _ => None
  end.

(** The exponent part, which must run to the end of the text. *)
Definition parse_exponent (s : JsString) : option Z :=
  match s with
  | [] => Some 0%Z
  | c :: s1 =>
      if (c =? 0x65) || (c =? 0x45) then
        let '(neg, s2) := read_sign s1 in
        match read_digits 10 0 0 s2 with
        | (v, S _, []) => Some (if neg then (- Z.of_N v)%Z else Z.of_N v)
        | _ => None
        end
      else None
  end.

Definition parse_decimal (s : JsString) : option JsNumber :=
  let '(neg, s1) := read_sign s in
  if jsstr_eqb s1 (str "Infinity")
  then Some (if neg then neg_infinity else infinity)
  else
    let '(int_part, int_digits, s2) := read_digits 10 0 0 s1 in
    let '(mantissa, frac_digits, s3) :=
      match s2 with
      | c :: s2' =>
          if c =? 0x2E then read_digits 10 int_part 0 s2'
          else (int_part, 0%nat, s2)
      | [] => (int_part, 0%nat, [])
      end in
    match (int_digits + frac_digits)%nat with
    | O => None
    | S _ =>
        match parse_exponent s3 with
        | Some e =>
            Some (decimal_to_number neg mantissa (e - Z.of_nat frac_digits))
        | None => None
        end
    end.

Definition StringToNumber (s : JsString) : JsNumber :=
  match trim s with
  | [] => 0%float
  | t =>
      match parse_nondecimal t with
      | Some x => x
      | None =>
          match parse_decimal t with
          | Some x => x
          | None => nan
          end
      end
  end.

(** *** [Number::toString]

    The shortest decimal digit string that reads back as the same Number,
    laid out in plain or exponential notation. *)

Definition num_digits (p : positive) : Z :=
  Z.of_nat (List.length (decimal (Npos p))).

(** [10^p <= num / den]. *)
Definition ge_pow10 (num den : positive) (p : Z) : bool :=
  if (0 <=? p)%Z then (den * pow10 p <=? num)%positive
  else (den <=? num * pow10 (- p))%positive.

(** The [n] with [10^(n-1) <= num / den < 10^n]. *)
Definition decimal_exponent (num den : positive) : Z :=
  let d := (num_digits num - num_digits den)%Z in
  if ge_pow10 num den d then (d + 1)%Z else d.

(** The [k]-digit integer [s] nearest to [num / den / 10^(n-k)] whose value
    [s * 10^(n-k)] reads back as [x], if there is one. *)
Definition shortest_at (num den : positive) (x : JsNumber) (n k : Z)
  : option Z :=
  let q := (n - k)%Z in
  let N' := (Zpos num * 10 ^ Z.max (- q) 0)%Z in
  let D' := (Zpos den * 10 ^ Z.max q 0)%Z in
  let lo := (N' / D')%Z in
  let r := (N' mod D')%Z in
  let hi := (lo + 1)%Z in
  let reads_back s := PrimFloat.eqb (decimal_to_number false (Z.to_N s) q) x in
  match reads_back lo, reads_back hi with
  | true, true =>
      Some (if (2 * r <? D')%Z then lo
            else if (D' <? 2 * r)%Z then hi
            else if Z.even lo then lo else hi)
  | true, false => Some lo
  | false, true => Some hi
  | false, false => None
  end.

Fixpoint shortest_from (num den : positive) (x : JsNumber) (n k : Z)
  (fuel : nat) : Z * Z :=
  match fuel with
  | O => ((Zpos num * 10 ^ Z.max (k - n) 0) / (Zpos den * 10 ^ Z.max (n - k) 0), k)%Z
  | S fuel' =>
      match shortest_at num den x n k with
      | Some s => (s, k)
      | None => shortest_from num den x n (k + 1) fuel'
      end
  end.

Fixpoint strip_zeros (s : JsString) : JsString :=
  match s with
  | [] => []
  | c :: s' => if c =? 0x30 then strip_zeros s' else s
  end.

Definition zeros (n : Z) : JsString := repeat 0x30 (Z.to_nat n).

Definition layout (digits : JsString) (n : Z) : JsString :=
  let k := Z.of_nat (List.length digits) in
  if ((k <=? n) && (n <=? 21))%Z then digits ++ zeros (n - k)
  else if ((0 <? n) && (n <=? 21))%Z
  then firstn (Z.to_nat n) digits ++ str "." ++ skipn (Z.to_nat n) digits
  else if ((-6 <? n) && (n <=? 0))%Z then str "0." ++ zeros (- n) ++ digits
  else
    let e := (n - 1)%Z in
    let exponent :=
      str "e" ++ (if (e <? 0)%Z then str "-" else str "+")
      ++ decimal (Z.to_N (Z.abs e)) in
    match digits with
    | [d] => [d] ++ exponent
    | d :: more => [d] ++ str "." ++ more ++ exponent
    | [] => exponent
    end.

Definition Number_toString (x : JsNumber) : JsString :=
  match Prim2SF x with
  | S754_nan => str "NaN"
  | S754_zero _ => str "0"
  | S754_infinity neg => if neg then str "-Infinity" else str "Infinity"
  | S754_finite neg m e =>
      let num := if (0 <=? e)%Z then (m * Z.to_pos (2 ^ e))%positive else m in
      let den := if (0 <=? e)%Z then 1%positive else Z.to_pos (2 ^ (- e)) in
      let n := decimal_exponent num den in
      let '(s, k) := shortest_from num den (PrimFloat.abs x) n 1 17 in
      let all := decimal (Z.to_N s) in
      let digits := rev (strip_zeros (rev all)) in
      (if neg then str "-" else [])
      ++ layout digits (n + (Z.of_nat (List.length all) - k))%Z
  end.

(** ** Completions

    An operation either returns normally or throws; [Throw] carries the
    message of the error. *)

Inductive Completion (A : Type) : Type :=
| Normal (a : A)
| Throw (message : JsString).

Arguments Normal {A} a.
Arguments Throw {A} message.

Definition bind {A B : Type} (c : Completion A) (k : A -> Completion B)
  : Completion B :=
  match c with
  | Normal a => k a
  | Throw e => Throw e
  end.

Notation "x <- c ;; k" := (bind c (fun x => k))
  (at level 61, c at next level, right associativity).

(** [Array.prototype.map] with a callback that may throw: the first throw
    abandons the traversal. *)
Fixpoint Array_map_throwing {A B : Type} (f : A -> Completion B) (l : list A)
  : Completion (list B) :=
  match l with
  | [] => Normal []
  | x :: l' => y <- f x ;; ys <- Array_map_throwing f l' ;; Normal (y :: ys)
  end.

(** [Array.prototype.map] with the index passed to the callback. *)
Fixpoint Array_map_from {A B : Type} (f : A -> N -> B) (i : N) (l : list A)
  : list B :=
  match l with
  | [] => []
  | x :: l' => f x i :: Array_map_from f (i + 1) l'
  end.

Definition Array_mapi {A B : Type} (f : A -> N -> B) (l : list A) : list B :=
  Array_map_from f 0 l.

(** ** Values

    The primitives are spelled out.  A function only shows its [typeof]
    and its text.  Of an object the components observe four things and no
    more, so an object is given by them: whether the property ["$$typeof"]
    is found on it, what [JSON.stringify] does with it (a text, [undefined],
    or a [TypeError] as for a cyclic structure or a BigInt inside), its time
    value when it is a [Date], and its [String(...)] conversion. *)

Record JsObject : Type := {
  has_typeof_marker : bool;
  json_text : Completion (option JsString);
  date_time : option JsNumber;
  string_form : JsString
}.

Inductive JsValue : Type :=
| VUndefined
| VNull
| VBool (b : bool)
| VNumber (n : JsNumber)
| VBigInt (z : Z)
| VString (s : JsString)
| VSymbol (description : JsString)
| VFunction (source : JsString)
| VObject (o : JsObject).

Inductive TypeTag : Type :=
| TUndefined | TObject | TBoolean | TNumber | TBigint | TString | TSymbol
| TFunction.

Definition typeof (v : JsValue) : TypeTag :=
  match v with
  | VUndefined => TUndefined
  | VNull => TObject
  | VBool _ => TBoolean
  | VNumber _ => TNumber
  | VBigInt _ => TBigint
  | VString _ => TString
  | VSymbol _ => TSymbol
  | VFunction _ => TFunction
  | VObject _ => TObject
  end.

Definition TypeTag_eqb (a b : TypeTag) : bool :=
  match a, b with
  | TUndefined, TUndefined | TObject, TObject | TBoolean, TBoolean
  | TNumber, TNumber | TBigint, TBigint | TString, TString
  | TSymbol, TSymbol | TFunction, TFunction => true
  | _, _ => false
  end.

(** A primitive value: every value that is neither an object nor a
    function. *)
Definition is_primitive (v : JsValue) : bool :=
  match v with
  | VFunction _ | VObject _ => false
  | _ => true
  end.

(** [ToBoolean]: the test that [value && ...] and [!value] perform. *)
Definition truthy (v : JsValue) : bool :=
  match v with
  | VUndefined | VNull => false
  | VBool b => b
  | VNumber n => negb (PrimFloat.eqb n 0 || isNaN n)
  | VBigInt z => negb (z =? 0)%Z
  | VString s => negb (jsstr_eqb s [])
  | VSymbol _ | VFunction _ | VObject _ => true
  end.

(** [value == null]. *)
Definition loosely_null (v : JsValue) : bool :=
  match v with
  | VUndefined | VNull => true
  | _ => false
  end.

Definition strictly_null (v : JsValue) : bool :=
  match v with VNull => true | _ => false end.

Definition strictly_undefined (v : JsValue) : bool :=
  match v with VUndefined => true | _ => false end.

(** [String(value)]. *)
Definition String_ (v : JsValue) : JsString :=
  match v with
  | VUndefined => str "undefined"
  | VNull => str "null"
  | VBool b => if b then str "true" else str "false"
  | VNumber n => Number_toString n
  | VBigInt z => (if (z <? 0)%Z then str "-" else []) ++ decimal (Z.to_N (Z.abs z))
  | VString s => s
  | VSymbol d => str "Symbol(" ++ d ++ str ")"
  | VFunction src => src
  | VObject o => string_form o
  end.

(** [Number(value)] for a string [value]. *)
Definition Number_ (s : JsString) : JsNumber := StringToNumber s.

(** [isFinite(x)]. *)
Definition isFinite (x : JsNumber) : bool :=
  PrimFloat.ltb (PrimFloat.abs x) infinity.

(** *** [JSON.stringify]

    The quoting of a string: the two-character escapes, [\uXXXX] for the
    other control characters and for a surrogate that has no partner, every
    other code unit as it is. *)

Definition hex_digit (d : N) : N :=
  if d <? 10 then 0x30 + d else 0x61 + (d - 10).

Definition unicode_escape (c : N) : JsString :=
  [ 0x5C; 0x75; hex_digit (c / 4096); hex_digit ((c / 256) mod 16);
    hex_digit ((c / 16) mod 16); hex_digit (c mod 16) ].

Definition is_high_surrogate (c : N) : bool := in_range 0xD800 0xDBFF c.
Definition is_low_surrogate (c : N) : bool := in_range 0xDC00 0xDFFF c.

Fixpoint quote_units (s : JsString) : JsString :=
  match s with
  | [] => []
  | c :: rest =>
      if c =? 0x08 then [0x5C; 0x62] ++ quote_units rest
      else if c =? 0x09 then [0x5C; 0x74] ++ quote_units rest
      else if c =? 0x0A then [0x5C; 0x6E] ++ quote_units rest
      else if c =? 0x0C then [0x5C; 0x66] ++ quote_units rest
      else if c =? 0x0D then [0x5C; 0x72] ++ quote_units rest
      else if c =? 0x22 then [0x5C; 0x22] ++ quote_units rest
      else if c =? 0x5C then [0x5C; 0x5C] ++ quote_units rest
      else if c <? 0x20 then unicode_escape c ++ quote_units rest
      else if is_high_surrogate c then
        match rest with
        | d :: rest' =>
            if is_low_surrogate d then c :: d :: quote_units rest'
            else unicode_escape c ++ quote_units rest
        | [] => unicode_escape c
        end
      else if is_low_surrogate c then unicode_escape c ++ quote_units rest
      else c :: quote_units rest
  end.

Definition QuoteJSONString (s : JsString) : JsString :=
  [0x22] ++ quote_units s ++ [0x22].

(** [JSON.stringify(value)]: a text, or [undefined] where the value has no
    JSON form, or a [TypeError]. *)
Definition JSON_stringify (value : JsValue) : Completion JsValue :=
  match value with
  | VUndefined | VSymbol _ | VFunction _ => Normal VUndefined
  | VNull => Normal (VString (str "null"))
  | VBool b => Normal (VString (if b then str "true" else str "false"))
  | VNumber n =>
      Normal (VString (if isFinite n then Number_toString n else str "null"))
  | VBigInt _ => Throw (str "Do not know how to serialize a BigInt")
  | VString s => Normal (VString (QuoteJSONString s))
  | VObject o =>
      r <- json_text o ;;
      Normal (match r with
              | Some text => VString text
              | None => VUndefined
              end)
  end.

(** ['$$typeof' in value], for a [value] of type object. *)
Definition has_typeof_property (value : JsValue) : bool :=
  match value with
  | VObject o => has_typeof_marker o
  | _ => false
  end.

(** [value instanceof Date], with the time value. *)
Definition as_Date (v : JsValue) : option JsNumber :=
  match v with
  | VObject o => date_time o
  | _ => None
  end.

(** ** Record objects

    A parsed row is an object used as a record: its own enumerable
    properties in enumeration order, with pairwise distinct keys. *)

Definition Row := list (JsString * JsValue).

Definition Object_keys (r : Row) : list JsString := map fst r.
Definition Object_values (r : Row) : list JsValue := map snd r.
Definition Object_entries (r : Row) : list (JsString * JsValue) := r.

(** A record is an ordinary object, so a name that it does not hold is
    looked up on [Object.prototype]: the constructor, the built-in
    methods, and the accessor [__proto__], which answers the prototype
    itself.  Every other name reads as [undefined]. *)

Definition PROTOTYPE_METHODS : list JsString :=
  map str [ "toString"; "toLocaleString"; "valueOf"; "hasOwnProperty";
            "isPrototypeOf"; "propertyIsEnumerable"; "__defineGetter__";
            "__defineSetter__"; "__lookupGetter__"; "__lookupSetter__" ]%string.

Definition native_function (name : JsString) : JsValue :=
  VFunction (str "function " ++ name ++ str "() { [native code] }").

Definition Object_prototype : JsObject :=
  {| has_typeof_marker := false;
     json_text := Normal (Some (str "{}"));
     date_time := None;
     string_form := str "[object Object]" |}.

Definition inherited (key : JsString) : JsValue :=
  if jsstr_eqb key (str "constructor") then native_function (str "Object")
  else if existsb (jsstr_eqb key) PROTOTYPE_METHODS then native_function key
  else if jsstr_eqb key (str "__proto__") then VObject Object_prototype
  else VUndefined.

(** [row[key]]: the record's own property, or else the inherited one. *)
Fixpoint obj_get (r : Row) (key : JsString) : JsValue :=
  match r with
  | [] => inherited key
  | (k, v) :: r' => if jsstr_eqb k key then v else obj_get r' key
  end.

(** [row[key] = value]: an existing property keeps its place, a new one
    comes last. *)
Fixpoint obj_set (r : Row) (key : JsString) (value : JsValue) : Row :=
  match r with
  | [] => [(key, value)]
  | (k, v) :: r' =>
      if jsstr_eqb k key then (k, value) :: r'
      else (k, v) :: obj_set r' key value
  end.

(** ** [Array.prototype.sort]

    The language fixes the result for a consistent comparator: the stable
    arrangement in which no element is followed by one that the comparator
    puts strictly before it.  This is the insertion procedure that yields
    it: elements are taken from left to right and each is put in front of
    the first element it is strictly smaller than.  Only the sign of the
    comparator's result is used, and [NaN] counts as zero.  For a
    comparator that is not consistent the language leaves the arrangement
    to the implementation; the procedure then gives one arrangement that
    a sort by comparisons can produce. *)

Section Sort.
Context {A : Type}.
Variable comparefn : A -> A -> JsNumber.

Definition before (x y : A) : bool := PrimFloat.ltb (comparefn x y) 0.

Fixpoint insert (x : A) (l : list A) : list A :=
  match l with
  | [] => [x]
  | y :: l' => if before x y then x :: l else y :: insert x l'
  end.

Definition Array_sort (l : list A) : list A :=
  fold_left (fun sorted x => insert x sorted) l [].
End Sort.

End Js.

Import Js.

(* ===================================================================== *)
(** * The record sanitizer *)
(* ===================================================================== *)

(** The sanitizing loop is written out three times in the sources with the
    same text: in [useFetchCsvData] of the chart component, in [fetchData]
    of the table component, and in [handleExport] of the page.  The chart
    component has a second loop of its own, see [ChartView]. *)

Module Sanitizer.

Definition REACT_ELEMENT : JsString := str "[React Element]".

(** The body of the loop for one [value]. *)
Definition sanitizeValue (value : JsValue) : Completion JsValue :=
  if truthy value && TypeTag_eqb (typeof value) TObject
     && has_typeof_property value
  then Normal (VString REACT_ELEMENT)
  else if truthy value && TypeTag_eqb (typeof value) TObject
  then JSON_stringify value
  else Normal value.

(** [Object.entries(row).forEach(([key, value]) => ...)], assigning into
    [sanitizedRow]. *)
Fixpoint forEach_entry (sanitize : JsValue -> Completion JsValue)
  (entries : list (JsString * JsValue)) (sanitizedRow : Row)
  : Completion Row :=
  match entries with
  | [] => Normal sanitizedRow
  | (key, value) :: rest =>
      v <- sanitize value ;;
      forEach_entry sanitize rest (obj_set sanitizedRow key v)
  end.

Definition sanitizeRow (sanitize : JsValue -> Completion JsValue) (row : Row)
  : Completion Row :=
  forEach_entry sanitize (Object_entries row) [].

(** [sanitize(raw)] of the table and export paths. *)
Definition sanitize (raw : Row) : Completion Row :=
  sanitizeRow sanitizeValue raw.

(** An element of [results.data]: a record object, or some value that is
    not an object (which the parser does not produce in header mode, but
    the table component guards against). *)
Inductive ParsedRow : Type :=
| RowObject (row : Row)
| RowOther (v : JsValue).

(** The callback of [results.data.map] in [useFetchCsvData] and in the table
    component: [if (typeof row !== 'object' || row === null) return {}]. *)
Definition sanitizeParsed (row : ParsedRow) : Completion Row :=
  match row with
  | RowOther _ => Normal []
  | RowObject r => sanitize r
  end.

Definition sanitizedData (results_data : list ParsedRow)
  : Completion (list Row) :=
  Array_map_throwing sanitizeParsed results_data.

End Sanitizer.

(* ===================================================================== *)
(** * components/ChartView.tsx *)
(* ===================================================================== *)

Module ChartView.

(** What [useFetchCsvData] returns. *)
Record FetchState : Type := {
  data : list Row;
  loading : bool;
  error : option JsString
}.

(** [loading || error]: an error message counts when it is not empty. *)
Definition error_set (error : option JsString) : bool :=
  match error with
  | Some message => negb (jsstr_eqb message [])
  | None => false
  end.

Module Dataset.
Record t : Type := {
  label : JsString;
  data : list (option JsNumber);
  backgroundColor : JsString
}.
End Dataset.

Record ChartData : Type := {
  labels : list JsString;
  datasets : list Dataset.t
}.

(** The state of the hook before any answer has come. *)
Definition initial : FetchState :=
  {| data := []; loading := true; error := None |}.

(** The [complete] callback given to the parser.  The parser runs it before
    it returns, so what the sanitizing loop throws ends in the [catch] of
    [fetchData]. *)
Definition complete (isMounted : bool) (results_data : list Sanitizer.ParsedRow)
  (st : FetchState) : FetchState :=
  if negb isMounted then st
  else
    match Sanitizer.sanitizedData results_data with
    | Normal sanitizedData =>
        {| data := sanitizedData; loading := false; error := error st |}
    | Throw message =>
        {| data := data st; loading := false; error := Some message |}
    end.

(** The predicate of [Object.keys(data[0]).filter(...)]. *)
Definition numeric_in (row0 : Row) (key : JsString) : bool :=
  let value := obj_get row0 key in
  negb (strictly_null value) && negb (strictly_undefined value)
  && (TypeTag_eqb (typeof value) TNumber
      || match value with
         | VString s => negb (isNaN (Number_ s))
         | _ => false
         end).

Definition numericKeys (row0 : Row) : list JsString :=
  filter (numeric_in row0) (Object_keys row0).

(** The second sanitizing loop, inside [chartData]: a marked object becomes
    [null]. *)
Definition sanitizeValue (value : JsValue) : Completion JsValue :=
  if truthy value && TypeTag_eqb (typeof value) TObject
     && has_typeof_property value
  then Normal VNull
  else if truthy value && TypeTag_eqb (typeof value) TObject
  then JSON_stringify value
  else Normal value.

Definition sanitizeRow (row : Row) : Completion Row :=
  Sanitizer.sanitizeRow sanitizeValue row.

(** The callback of [sanitizedData.map] that builds a series. *)
Definition point (row : Row) (key : JsString) : option JsNumber :=
  match obj_get row key with
  | VNumber n => Some n
  | VString s => if negb (isNaN (Number_ s)) then Some (Number_ s) else None
  | _ => None
  end.

Definition row_label (i : N) : JsString := str "Row " ++ decimal (i + 1).

Definition hsl (i : N) : JsString :=
  str "hsl(" ++ decimal (i * 60) ++ str ", 70%, 50%)".

Definition chartData (st : FetchState) : Completion (option ChartData) :=
  if loading st || error_set (error st) then Normal None
  else
    match data st with
    | [] => Normal None
    | row0 :: _ =>
        let labels := Array_mapi (fun _ i => row_label i) (data st) in
        match numericKeys row0 with
        | [] => Normal None
        | keys =>
            sanitizedData <- Array_map_throwing sanitizeRow (data st) ;;
            Normal (Some {|
              labels := labels;
              datasets :=
                Array_mapi
                  (fun key i => {|
                     Dataset.label := key;
                     Dataset.data := map (fun row => point row key) sanitizedData;
                     Dataset.backgroundColor := hsl i |})
                  keys |})
        end
    end.

End ChartView.

(* ===================================================================== *)
(** * components/DataTable.tsx *)
(* ===================================================================== *)

Module DataTable.

Record State : Type := {
  data : list Row;
  loading : bool;
  error : option JsString;
  filter : JsString;
  sortField : option JsString;
  sortAsc : bool
}.

Definition initial : State := {|
  data := []; loading := true; error := None;
  filter := []; sortField := None; sortAsc := true |}.

(** The [complete] callback given to the parser, as in the chart
    component. *)
Definition complete (isMounted : bool) (results_data : list Sanitizer.ParsedRow)
  (st : State) : State :=
  if negb isMounted then st
  else
    match Sanitizer.sanitizedData results_data with
    | Normal sanitizedData =>
        {| data := sanitizedData; loading := false; error := error st;
           filter := filter st; sortField := sortField st;
           sortAsc := sortAsc st |}
    | Throw message =>
        {| data := data st; loading := false; error := Some message;
           filter := filter st; sortField := sortField st;
           sortAsc := sortAsc st |}
    end.

Definition row_matches (filter : JsString) (row : Row) : bool :=
  existsb
    (fun val => includes (toLowerCase (String_ val)) (toLowerCase filter))
    (Object_values row).

Definition filteredData (st : State) : list Row :=
  if loading st || ChartView.error_set (error st) then []
  else
    match data st with
    | [] => []
    | _ => List.filter (row_matches (filter st)) (data st)
    end.

(** [onChange={(e) => setFilter(e.target.value)}]. *)
Definition setFilter (value : JsString) (st : State) : State := {|
  data := data st; loading := loading st; error := error st;
  filter := value;
  sortField := sortField st; sortAsc := sortAsc st |}.

(** The [onClick] of a column header: [setSortField(header)] and
    [setSortAsc(sortField === header ? !sortAsc : true)]. *)
Definition clickHeader (header : JsString) (st : State) : State := {|
  data := data st; loading := loading st; error := error st;
  filter := filter st;
  sortField := Some header;
  sortAsc :=
    match sortField st with
    | Some current => if jsstr_eqb current header then negb (sortAsc st) else true
    | None => true
    end |}.

Section Collation.
(** [String.prototype.localeCompare] depends on the collation of the
    host's locale; it is a parameter of the table. *)
Variable localeCompare : JsString -> JsString -> JsNumber.

Definition compareStrings (sortAsc : bool) (aVal bVal : JsValue) : JsNumber :=
  if sortAsc then localeCompare (String_ aVal) (String_ bVal)
  else localeCompare (String_ bVal) (String_ aVal).

(** The comparator handed to [sort]. *)
Definition compareRows (sortField : option JsString) (sortAsc : bool)
  (a b : Row) : JsNumber :=
  match sortField with
  | None => 0%float
  | Some field =>
      if jsstr_eqb field [] then 0%float
      else
        let aVal := obj_get a field in
        let bVal := obj_get b field in
        if loosely_null aVal then (if sortAsc then (-1)%float else 1%float)
        else if loosely_null bVal then (if sortAsc then 1%float else (-1)%float)
        else
          match aVal, bVal with
          | VNumber x, VNumber y =>
              if sortAsc then PrimFloat.sub x y else PrimFloat.sub y x
          | _, _ =>
              match as_Date aVal, as_Date bVal with
              | Some aTime, Some bTime =>
                  if isNaN aTime || isNaN bTime
                  then compareStrings sortAsc aVal bVal
                  else if sortAsc then PrimFloat.sub aTime bTime
                       else PrimFloat.sub bTime aTime
              | _, _ => compareStrings sortAsc aVal bVal
              end
          end
  end.

Definition sortedData (st : State) : list Row :=
  match filteredData st with
  | [] => []
  | rows => Array_sort (compareRows (sortField st) (sortAsc st)) rows
  end.
End Collation.

End DataTable.

(* ===================================================================== *)
(** * pages/index.tsx *)
(* ===================================================================== *)

Module Home.

Import Sanitizer.

Record State : Type := {
  csvFilePath : JsString;
  dark : bool;
  csvError : option JsString;
  fetchError : option JsString;
  parseError : option JsString;
  exportError : option JsString
}.

Definition initial : State := {|
  csvFilePath := str "/2017PurchasePricesDec.csv";
  dark := false;
  csvError := None;
  fetchError := None;
  parseError := None;
  exportError := None
|}.

Definition handleFileSelected (filePath : JsString) (st : State) : State := {|
  csvFilePath := filePath;
  dark := dark st;
  csvError := None;
  fetchError := None;
  parseError := None;
  exportError := None
|}.

(** What the handler does to the world outside the page state. *)
Inductive Effect : Type :=
| FetchRequest (url : JsString)
| ConsoleError (text : JsString)
| Download (filename content : JsString).

(** The outside world as the handler meets it: the answer to [fetch], the
    CSV parser and the [json2csv] serializer. *)
Record Response : Type := {
  ok : bool;
  status : N;
  text : Completion JsString
}.

Inductive FetchOutcome : Type :=
| FetchRejected (message : JsString)
| FetchResolved (response : Response).

Record ParseResults : Type := {
  results_data : list ParsedRow;
  results_errors : list JsString
}.

Inductive ParseOutcome : Type :=
| ParseComplete (results : ParseResults)
| ParseError (message : JsString).

Record Env : Type := {
  fetch : JsString -> FetchOutcome;
  Papa_parse : JsString -> ParseOutcome;
  Parser_parse : list Row -> Completion JsString
}.

(** [Object.entries(row)] for an element of [results.data]. *)
Definition entries_of (row : ParsedRow) : Completion Row :=
  match row with
  | RowObject r => Normal (Object_entries r)
  | RowOther VUndefined | RowOther VNull =>
      Throw (str "Cannot convert undefined or null to object")
  | RowOther (VString s) =>
      Normal (Array_mapi (fun c i => (decimal i, VString [c])) s)
  | RowOther _ => Normal []
  end.

(** The callback of [results.data.map] in [handleExport]. *)
Definition sanitizeExported (row : ParsedRow) : Completion Row :=
  entries <- entries_of row ;;
  forEach_entry sanitizeValue entries [].

Definition with_csvError (e : option JsString) (st : State) : State := {|
  csvFilePath := csvFilePath st; dark := dark st;
  csvError := e; fetchError := fetchError st;
  parseError := parseError st; exportError := exportError st |}.

Definition with_fetchError (e : option JsString) (st : State) : State := {|
  csvFilePath := csvFilePath st; dark := dark st;
  csvError := csvError st; fetchError := e;
  parseError := parseError st; exportError := exportError st |}.

Definition with_parseError (e : option JsString) (st : State) : State := {|
  csvFilePath := csvFilePath st; dark := dark st;
  csvError := csvError st; fetchError := fetchError st;
  parseError := e; exportError := exportError st |}.

Definition with_exportError (e : option JsString) (st : State) : State := {|
  csvFilePath := csvFilePath st; dark := dark st;
  csvError := csvError st; fetchError := fetchError st;
  parseError := parseError st; exportError := e |}.

Definition DOWNLOAD_NAME : JsString := str "sustainity-data.csv".
Definition UPLOAD_FIRST : JsString := str "Please upload a CSV file first.".
Definition PARSE_FAILED : JsString := str "Error parsing CSV file.".
Definition EXPORT_FAILED : JsString :=
  str "Error generating CSV file for download.".

(** The [.catch] at the end of the promise chain. *)
Definition fetch_failed (message : JsString) (st : State)
  : State * list Effect :=
  (with_fetchError (Some (str "Error fetching CSV file: " ++ message)) st,
   [ConsoleError (str "Error fetching CSV:")]).

(** The [complete] callback given to the parser. *)
Definition complete (env : Env) (results : ParseResults) (st : State)
  : State * list Effect :=
  match results_errors results with
  | _ :: _ =>
      (with_parseError (Some PARSE_FAILED) st,
       [ConsoleError (str "CSV parse errors:")])
  | [] =>
      match
        sanitizedData <- Array_map_throwing sanitizeExported
                           (results_data results) ;;
        Parser_parse env sanitizedData
      with
      | Normal csv => (st, [Download DOWNLOAD_NAME csv])
      | Throw _ =>
          (with_exportError (Some EXPORT_FAILED) st,
           [ConsoleError (str "Error generating CSV:")])
      end
  end.

Definition handleExport (env : Env) (st : State) : State * list Effect :=
  if jsstr_eqb (csvFilePath st) [] then
    (with_csvError (Some UPLOAD_FIRST) st, [])
  else
    let st :=
      with_exportError None
        (with_parseError None (with_fetchError None (with_csvError None st))) in
    let '(st', effects) :=
      match fetch env (csvFilePath st) with
      | FetchRejected message => fetch_failed message st
      | FetchResolved response =>
          if negb (ok response) then
            fetch_failed
              (str "Network response was not ok: " ++ decimal (status response))
              st
          else
            match text response with
            | Throw message => fetch_failed message st
            | Normal csvText =>
                match Papa_parse env csvText with
                | ParseComplete results => complete env results st
                | ParseError _ =>
                    (with_parseError (Some PARSE_FAILED) st,
                     [ConsoleError (str "CSV parse error:")])
                end
            end
      end in
    (st', FetchRequest (csvFilePath st) :: effects).

(** The page with its two children.  The children keep their own state and
    take [csvFilePath] as their only input; a click on the export button
    runs [handleExport] on the page state. *)
Record App : Type := {
  home : State;
  table : DataTable.State;
  chart : ChartView.FetchState
}.

Definition click_export (env : Env) (app : App) : App * list Effect :=
  let '(home', effects) := handleExport env (home app) in
  ({| home := home'; table := table app; chart := chart app |}, effects).

Definition is_download (e : Effect) : bool :=
  match e with
  | Download _ _ => true
  | _ => false
  end.

End Home.

(* ===================================================================== *)
(** * Vocabulary of the statements *)
(* ===================================================================== *)

Definition is_object (v : JsValue) : bool :=
  match v with
  | VObject _ => true
  | _ => false
  end.

Fixpoint distinct (keys : list JsString) : bool :=
  match keys with
  | [] => true
  | k :: keys' => negb (existsb (jsstr_eqb k) keys') && distinct keys'
  end.


(** A value that is a string or [null]: the scalars a sanitized record is
    said to hold (a number-like string and the placeholder are strings). *)
Definition safe_scalar (v : JsValue) : bool :=
  match v with
  | VString _ | VNull => true
  | _ => false
  end.

(** [JSON.stringify] returns on every unmarked object of the record. *)
Definition serialisable (raw : Row) : bool :=
  forallb
    (fun v =>
       match v with
       | VObject o =>
           has_typeof_marker o
           || match json_text o with
              | Normal _ => true
              | Throw _ => false
              end
       | _ => true
       end)
    (Object_values raw).

(** A record as the sanitizer leaves it: distinct keys, no object among the
    values. *)
Definition sanitized_row (r : Row) : bool :=
  distinct (Object_keys r)
  && forallb (fun v => negb (is_object v)) (Object_values r).

(** ** Sample records used to exercise the statements *)

Module Samples.

(** A rendered element, as a UI library would leak it. *)
Definition element : JsObject := {|
  has_typeof_marker := true;
  json_text := Normal (Some (str "{}"));
  date_time := None;
  string_form := str "[object Object]"
|}.

(** The array a parser leaves under [__parsed_extra]. *)
Definition extra : JsObject := {|
  has_typeof_marker := false;
  json_text := Normal (Some (str "[7]"));
  date_time := None;
  string_form := str "7"
|}.

(** [const o = {}; o.self = o]. *)
Definition cyclic : JsObject := {|
  has_typeof_marker := false;
  json_text := Throw (str "Converting circular structure to JSON");
  date_time := None;
  string_form := str "[object Object]"
|}.

Definition callback : JsValue := VFunction (str "() => {}").

Definition mixed : Row :=
  [ (str "name", VString (str "Apple"));
    (str "icon", VObject element);
    (str "__parsed_extra", VObject extra);
    (str "price", VString (str "1.5")) ].

Definition with_callback : Row :=
  [ (str "name", VString (str "Apple")); (str "onClick", callback) ].

Definition with_cycle : Row :=
  [ (str "name", VString (str "Apple")); (str "self", VObject cyclic) ].

End Samples.

(** ** The chart summary, in the words of its description *)

(** A first-row value makes its column eligible: it is not null, and it is
    a number or a string that parses fully as a number. *)
Definition spec_eligible (v : JsValue) : Prop :=
  v <> VNull /\ v <> VUndefined
  /\ ((exists n, v = VNumber n)
      \/ (exists s, v = VString s /\ isNaN (Number_ s) = false)).

(** What a record contributes to a series: its numeric value if it is a
    number, its parsed value if it is a fully numeric string, [null]
    otherwise. *)
Definition spec_contribution (v : JsValue) : option JsNumber :=
  match v with
  | VNumber n => Some n
  | VString s => if isNaN (Number_ s) then None else Some (Number_ s)
  | _ => None
  end.

(** The columns that have a series in the summary. *)
Definition has_series (chart : option ChartView.ChartData) (key : JsString)
  : Prop :=
  exists c ds,
    chart = Some c /\ In ds (ChartView.datasets c)
    /\ ChartView.Dataset.label ds = key.

Module ChartSamples.
Import ChartView.

Definition apple : Row :=
  [ (str "name", VString (str "Apple")); (str "price", VString (str "1.5")) ].
Definition banana : Row :=
  [ (str "name", VString (str "Banana")); (str "price", VString (str "abc")) ].

(** ["name,price\nApple,1.5\nBanana,abc\n"], loaded. *)
Definition fruit : FetchState :=
  {| data := [apple; banana]; loading := false; error := None |}.

Definition blank : Row :=
  [ (str "name", VString (str "Apple")); (str "note", VString []) ].
Definition noted : Row :=
  [ (str "name", VString (str "Banana")); (str "note", VString (str "ripe")) ].

(** ["name,note\nApple,\nBanana,ripe\nApple,\n"], loaded. *)
Definition notes : FetchState :=
  {| data := [blank; noted; blank]; loading := false; error := None |}.
End ChartSamples.

(** ** The table filter, in the words of its description *)

(** [text] contains [filter] as a case-insensitive substring. *)
Definition contains_ci (text filter : JsString) : Prop :=
  exists pre post, toLowerCase text = pre ++ toLowerCase filter ++ post.

Definition has_value (row : Row) : bool :=
  match Object_values row with
  | [] => false
  | _ :: _ => true
  end.

Module TableSamples.
Import DataTable.

Definition loaded (rows : list Row) : State := {|
  data := rows; loading := false; error := None;
  filter := []; sortField := None; sortAsc := true |}.

(** The record [{}]. *)
Definition bare : Row := [].

(** A word with a sigma in the middle: "a", small sigma, "b". *)
Definition sigma_word : Row := [ (str "word", VString [0x61; 0x3C3; 0x62]%N) ].

(** "A" followed by a capital sigma, and "B". *)
Definition A_SIGMA : JsString := [0x41; 0x3A3]%N.
Definition B : JsString := [0x42]%N.

End TableSamples.

(** ** A sample collation

    The order of the code units, as the collation of a host would compare
    plain unaccented lower-case words.  It stands in for [localeCompare]
    where a statement is exercised on a concrete table. *)

Fixpoint code_unit_order (a b : JsString) : JsNumber :=
  match a, b with
  | [], [] => 0%float
  | [], _ :: _ => (-1)%float
  | _ :: _, [] => 1%float
  | x :: a', y :: b' =>
      if (x <? y)%N then (-1)%float
      else if (y <? x)%N then 1%float
      else code_unit_order a' b'
  end.

Module SortSamples.
Import DataTable.

(** ["a,b\nx,1\ny\nz\n"] as the parser hands it over in header mode: the
    two short rows have no property for the second column. *)
Definition full : Row :=
  [ (str "a", VString (str "x")); (str "b", VString (str "1")) ].
Definition short_y : Row := [ (str "a", VString (str "y")) ].
Definition short_z : Row := [ (str "a", VString (str "z")) ].

Definition by_b (rows : list Row) : State := {|
  data := rows; loading := false; error := None;
  filter := []; sortField := Some (str "b"); sortAsc := true |}.

(** Two dates, one of them invalid. *)
Definition new_year : JsObject := {|
  has_typeof_marker := false;
  json_text := Normal (Some (str "2024-01-01T00:00:00.000Z"));
  date_time := Some 1704067200000%float;
  string_form := str "Mon Jan 01 2024 00:00:00 GMT+0000"
|}.

Definition invalid_date : JsObject := {|
  has_typeof_marker := false;
  json_text := Normal (Some (str "null"));
  date_time := Some nan;
  string_form := str "Invalid Date"
|}.

(** The fruit table with the larger name first, sorted by name. *)
Definition by_name (sortAsc : bool) : State := {|
  data := [ChartSamples.banana; ChartSamples.apple];
  loading := false; error := None;
  filter := []; sortField := Some (str "name"); sortAsc := sortAsc |}.

Definition priced (n : JsNumber) : Row := [ (str "b", VNumber n) ].
Definition dated (d : JsObject) : Row := [ (str "b", VObject d) ].

End SortSamples.

Module ExportSamples.
Import Sanitizer Home.

Definition idle_table : DataTable.State := {|
  DataTable.data := []; DataTable.loading := true; DataTable.error := None;
  DataTable.filter := []; DataTable.sortField := None;
  DataTable.sortAsc := true |}.

Definition idle_chart : ChartView.FetchState := {|
  ChartView.data := []; ChartView.loading := true; ChartView.error := None |}.

(** The page as it is first rendered: the default source, no rows yet. *)
Definition fresh : App :=
  {| home := initial; table := idle_table; chart := idle_chart |}.

(** The page with no source selected. *)
Definition unselected : App :=
  {| home := handleFileSelected [] initial;
     table := idle_table; chart := idle_chart |}.

Definition parsed_fruit : ParseResults := {|
  results_data := [RowObject ChartSamples.apple; RowObject ChartSamples.banana];
  results_errors := [] |}.

Definition served (body : JsString) : FetchOutcome :=
  FetchResolved {| ok := true; status := 200; text := Normal body |}.

Definition not_found : FetchOutcome :=
  FetchResolved {| ok := false; status := 404; text := Normal [] |}.

(** A world in which the file is served and parsed and the serializer
    throws. *)
Definition failing_serializer : Env := {|
  fetch := fun _ => served (str "name,price");
  Papa_parse := fun _ => ParseComplete parsed_fruit;
  Parser_parse := fun _ => Throw (str "Data should not be empty")
|}.

(** A world in which the file is not there. *)
Definition missing_file : Env := {|
  fetch := fun _ => not_found;
  Papa_parse := fun _ => ParseComplete parsed_fruit;
  Parser_parse := fun _ => Normal []
|}.

End ExportSamples.

(** ** The table sort, in the words of its description *)

(** In a sequence arranged by [comparefn], no element is followed by one
    that the comparator puts strictly before it. *)
Definition in_order {A : Type} (comparefn : A -> A -> JsNumber)
  (earlier later : A) : Prop :=
  before comparefn later earlier = false.

Definition arranged {A : Type} (comparefn : A -> A -> JsNumber)
  (l : list A) : Prop :=
  StronglySorted (in_order comparefn) l.

(** [x] stands somewhere before [y] in [l]. *)
Definition precedes {A : Type} (x y : A) (l : list A) : Prop :=
  exists l1 l2 l3, l = l1 ++ x :: l2 ++ y :: l3.

(** The record has a string under the column: what the parser leaves for
    every row that is long enough to reach the column. *)
Definition has_string_under (field : JsString) (row : Row) : bool :=
  match obj_get row field with
  | VString _ => true
  | _ => false
  end.

(** [setSortAsc(value)]. *)
Definition with_sortAsc (value : bool) (st : DataTable.State)
  : DataTable.State := {|
  DataTable.data := DataTable.data st;
  DataTable.loading := DataTable.loading st;
  DataTable.error := DataTable.error st;
  DataTable.filter := DataTable.filter st;
  DataTable.sortField := DataTable.sortField st;
  DataTable.sortAsc := value |}.

(* ===================================================================== *)
(** * The loading effect of the two components *)
(* ===================================================================== *)

(** [useFetchCsvData] of the chart and the [useEffect] of the table run the
    same [fetchData]: fetch the source, refuse a response that is not OK,
    load the parser, parse, and hand the rows to [complete]; whatever is
    thrown on the way ends in the [catch].  [isMounted] is the flag as it
    stands when the answer arrives: it is false once the effect has been
    cleaned up. *)

Module Loader.

(** The outside world as [fetchData] meets it: the answer to [fetch] and
    the outcome of [import('papaparse')]. *)
Record World : Type := {
  fetch : JsString -> Home.FetchOutcome;
  import_papaparse : Completion (JsString -> Home.ParseOutcome)
}.

Definition HTTP_ERROR (status : N) : JsString :=
  str "HTTP error! status: " ++ decimal status.

(** What reaches the rows or the [catch]: the rows handed to [complete], or
    the message of the error. *)
Inductive Answer : Type :=
| Rows (results_data : list Sanitizer.ParsedRow)
| Failure (message : JsString).

Definition answer (world : World) (csvFilePath : JsString) : Answer :=
  match fetch world csvFilePath with
  | Home.FetchRejected message => Failure message
  | Home.FetchResolved response =>
      if negb (Home.ok response) then Failure (HTTP_ERROR (Home.status response))
      else
        match Home.text response with
        | Throw message => Failure message
        | Normal csvText =>
            match import_papaparse world with
            | Throw message => Failure message
            | Normal parse =>
                match parse csvText with
                | Home.ParseComplete results => Rows (Home.results_data results)
                | Home.ParseError message => Failure message
                end
            end
        end
  end.

(** The [catch] of [fetchData] and the [error] callback of the parser, in
    the chart component. *)
Definition chart_failed (isMounted : bool) (message : JsString)
  (st : ChartView.FetchState) : ChartView.FetchState :=
  if negb isMounted then st
  else {| ChartView.data := ChartView.data st;
          ChartView.loading := false;
          ChartView.error := Some message |}.

Definition chart_fetchData (world : World) (isMounted : bool)
  (csvFilePath : JsString) (st : ChartView.FetchState)
  : ChartView.FetchState :=
  match answer world csvFilePath with
  | Rows results_data => ChartView.complete isMounted results_data st
  | Failure message => chart_failed isMounted message st
  end.

(** The same in the table component. *)
Definition table_failed (isMounted : bool) (message : JsString)
  (st : DataTable.State) : DataTable.State :=
  if negb isMounted then st
  else {| DataTable.data := DataTable.data st;
          DataTable.loading := false;
          DataTable.error := Some message;
          DataTable.filter := DataTable.filter st;
          DataTable.sortField := DataTable.sortField st;
          DataTable.sortAsc := DataTable.sortAsc st |}.

Definition table_fetchData (world : World) (isMounted : bool)
  (csvFilePath : JsString) (st : DataTable.State) : DataTable.State :=
  match answer world csvFilePath with
  | Rows results_data => DataTable.complete isMounted results_data st
  | Failure message => table_failed isMounted message st
  end.

End Loader.

(* ===================================================================== *)
(** * components/FileUploader.tsx *)
(* ===================================================================== *)

Module FileUploader.

(** [String.prototype.endsWith]. *)
Definition endsWith (s suffix : JsString) : bool :=
  startsWith (rev s) (rev suffix).

(** A chosen file: its name, and what reading it as text gives; [Throw]
    stands for the reader's [onerror]. *)
Record File : Type := {
  name : JsString;
  readAsText : Completion JsString
}.

(** What [handleFileChange] leaves behind: the error of the component and
    the path handed to [onFileSelected], if it was called. *)
Record Outcome : Type := {
  error : option JsString;
  selected : option JsString
}.

Definition SELECT_A_FILE : JsString := str "Please select a file".
Definition UPLOAD_A_CSV : JsString := str "Please upload a CSV file".
Definition PROCESSING_FAILED : JsString := str "Error processing file".
Definition READING_FAILED : JsString := str "Error reading file".

(** [reader.onload]: nothing happens on an empty result. *)
Definition onload (createObjectURL : JsString -> Completion JsString)
  (result : JsString) : Outcome :=
  if negb (jsstr_eqb result []) then
    match createObjectURL result with
    | Normal filePath => {| error := None; selected := Some filePath |}
    | Throw _ => {| error := Some PROCESSING_FAILED; selected := None |}
    end
  else {| error := None; selected := None |}.

(** [handleFileChange], with [files] standing for [e.target.files?.[0]]
    and [createObjectURL] for the making of the blob and of its URL. *)
Definition handleFileChange
  (createObjectURL : JsString -> Completion JsString) (files : option File)
  : Outcome :=
  match files with
  | None => {| error := Some SELECT_A_FILE; selected := None |}
  | Some file =>
      if negb (endsWith (name file) (str ".csv")) then
        {| error := Some UPLOAD_A_CSV; selected := None |}
      else
        match readAsText file with
        | Normal result => onload createObjectURL result
        | Throw _ => {| error := Some READING_FAILED; selected := None |}
        end
  end.

(** The page under the uploader: [onFileSelected={handleFileSelected}]. *)
Definition upload (createObjectURL : JsString -> Completion JsString)
  (files : option File) (page : Home.State) : Outcome * Home.State :=
  let outcome := handleFileChange createObjectURL files in
  (outcome,
   match selected outcome with
   | Some filePath => Home.handleFileSelected filePath page
   | None => page
   end).

End FileUploader.

(** ** Vocabulary of the further statements *)

(** The error fields of the page that are set. *)
Definition errors_shown (st : Home.State) : list JsString :=
  List.concat
    (map (fun e => match e with Some m => [m] | None => [] end)
       [ Home.csvError st; Home.fetchError st;
         Home.parseError st; Home.exportError st ]).

Definition downloads (effects : list Home.Effect) : list Home.Effect :=
  List.filter Home.is_download effects.

(** Every value of the record is a string: a row as the parser makes it. *)
Definition all_strings (row : Row) : bool :=
  forallb (fun v => match v with VString _ => true | _ => false end)
    (Object_values row).

Definition with_table (t : DataTable.State) (app : Home.App) : Home.App :=
  {| Home.home := Home.home app; Home.table := t; Home.chart := Home.chart app |}.

Module MoreSamples.

Definition blob_url (content : JsString) : Completion JsString :=
  Normal (str "blob:http://localhost/1").

Definition prices_csv : FileUploader.File := {|
  FileUploader.name := str "prices.csv";
  FileUploader.readAsText := Normal (str "name,price")
|}.

(** A world in which the file is served and parsed into the fruit rows,
    the parser reporting a row error on the way. *)
Definition parsed_with_errors : Home.ParseResults := {|
  Home.results_data :=
    [Sanitizer.RowObject ChartSamples.apple; Sanitizer.RowObject SortSamples.short_y];
  Home.results_errors := [str "Too few fields"]
|}.

Definition serving (results : Home.ParseResults) : Loader.World := {|
  Loader.fetch := fun _ => ExportSamples.served (str "name,price");
  Loader.import_papaparse := Normal (fun _ => Home.ParseComplete results)
|}.

Definition exporting (results : Home.ParseResults) : Home.Env := {|
  Home.fetch := fun _ => ExportSamples.served (str "name,price");
  Home.Papa_parse := fun _ => Home.ParseComplete results;
  Home.Parser_parse := fun _ => Normal (str "csv")
|}.

Definition unreachable : Loader.World := {|
  Loader.fetch := fun _ => ExportSamples.not_found;
  Loader.import_papaparse := Normal (fun _ => Home.ParseComplete ExportSamples.parsed_fruit)
|}.

(** The chart hook after a failed load. *)
Definition chart_in_error : ChartView.FetchState := {|
  ChartView.data := []; ChartView.loading := false;
  ChartView.error := Some (str "HTTP error! status: 404") |}.

Definition table_in_error : DataTable.State := {|
  DataTable.data := []; DataTable.loading := false;
  DataTable.error := Some (str "HTTP error! status: 404");
  DataTable.filter := []; DataTable.sortField := None;
  DataTable.sortAsc := true |}.

End MoreSamples.

(** The world of the components that answers as the world of the page
    does, with the parser loaded. *)
Definition world_of (env : Home.Env) : Loader.World := {|
  Loader.fetch := Home.fetch env;
  Loader.import_papaparse := Normal (Home.Papa_parse env)
|}.

(** The chart hook and the table hold the same dataset in the same
    loading state. *)
Definition agree (chart : ChartView.FetchState) (table : DataTable.State)
  : Prop :=
  ChartView.data chart = DataTable.data table
  /\ ChartView.loading chart = DataTable.loading table
  /\ ChartView.error chart = DataTable.error table.

(** ** Tables sorted by text and by a column without a name *)

Module TextSamples.
Import DataTable.




(** A record that holds no column called [constructor] still reads a
    value under that name. *)
Definition by_constructor (rows : list Row) : State := {|
  data := rows; loading := false; error := None;
  filter := []; sortField := Some (str "constructor"); sortAsc := true |}.

(** Words in Greek capitals with tonos and dialytika. *)
Definition ALPHA_TONOS_SIGMA : JsString := [0x386; 0x3A3]%N.
Definition IOTA_DIALYTIKA : JsString := [0x3AA; 0x38F; 0x3CF; 0x3F4]%N.

End TextSamples.

(* ===================================================================== *)
(** * Properties *)
(* ===================================================================== *)

(** ** Strings and record objects *)

Lemma jsstr_eqb_eq (a b : JsString) : jsstr_eqb a b = true <-> a = b.
Proof.
  revert b; induction a as [|x a IH]; intros [|y b]; simpl;
    try (split; [discriminate | discriminate]); try tauto.
  rewrite andb_true_iff, N.eqb_eq, IH. split.
  - intros [-> ->]; reflexivity.
  - intros E; injection E; auto.
Qed.

Lemma jsstr_eqb_refl (a : JsString) : jsstr_eqb a a = true.
Proof. apply jsstr_eqb_eq; reflexivity. Qed.

Lemma jsstr_eqb_neq (a b : JsString) : jsstr_eqb a b = false <-> a <> b.
Proof.
  rewrite <- jsstr_eqb_eq. destruct (jsstr_eqb a b); split; congruence.
Qed.

(** The test [value && typeof value === 'object'] singles out the objects. *)
Lemma object_test (v : JsValue) :
  truthy v && TypeTag_eqb (typeof v) TObject = true <-> exists o, v = VObject o.
Proof.
  split.
  - destruct v; simpl; rewrite ?andb_false_r; try discriminate.
    intros _; eexists; reflexivity.
  - intros [o ->]; reflexivity.
Qed.

Lemma existsb_jsstr_eqb (k : JsString) (keys : list JsString) :
  existsb (jsstr_eqb k) keys = true <-> In k keys.
Proof.
  rewrite existsb_exists. split.
  - intros [x [Hin E]]. apply jsstr_eqb_eq in E. subst; assumption.
  - intros Hin. exists k. split; [assumption | apply jsstr_eqb_refl].
Qed.

Lemma distinct_NoDup (keys : list JsString) :
  distinct keys = true <-> NoDup keys.
Proof.
  induction keys as [|k keys IH]; simpl.
  - split; [constructor | reflexivity].
  - rewrite andb_true_iff, negb_true_iff, IH. split.
    + intros [Hk Hd]. constructor; [|assumption].
      rewrite <- existsb_jsstr_eqb. congruence.
    + intros Hd. inversion_clear Hd as [|? ? Hk Hd'].
      split; [|assumption].
      destruct (existsb (jsstr_eqb k) keys) eqn:E; [|reflexivity].
      apply existsb_jsstr_eqb in E. contradiction.
Qed.

Lemma obj_get_absent (r : Row) (key : JsString) :
  ~ In key (Object_keys r) -> obj_get r key = inherited key.
Proof.
  induction r as [|[k v] r IH]; simpl; [reflexivity|].
  intros Hn. destruct (jsstr_eqb k key) eqn:E.
  - apply jsstr_eqb_eq in E. tauto.
  - apply IH. tauto.
Qed.

(** Assigning a new property appends it. *)
Lemma obj_set_fresh (r : Row) (key : JsString) (v : JsValue) :
  ~ In key (Object_keys r) -> obj_set r key v = r ++ [(key, v)].
Proof.
  induction r as [|[k w] r IH]; simpl; [reflexivity|].
  intros Hn. destruct (jsstr_eqb k key) eqn:E.
  - apply jsstr_eqb_eq in E. tauto.
  - rewrite IH by tauto. reflexivity.
Qed.

Lemma obj_set_keys (r : Row) (key : JsString) (v : JsValue) :
  Object_keys (obj_set r key v)
  = if existsb (jsstr_eqb key) (Object_keys r) then Object_keys r
    else Object_keys r ++ [key].
Proof.
  induction r as [|[k w] r IH]; simpl; [reflexivity|].
  destruct (jsstr_eqb k key) eqn:E.
  - apply jsstr_eqb_eq in E. subst. rewrite jsstr_eqb_refl. reflexivity.
  - assert (jsstr_eqb key k = false) as ->.
    { apply jsstr_eqb_neq. apply jsstr_eqb_neq in E. congruence. }
    simpl. rewrite IH. destruct (existsb _ _); reflexivity.
Qed.

Lemma obj_set_NoDup (r : Row) (key : JsString) (v : JsValue) :
  NoDup (Object_keys r) -> NoDup (Object_keys (obj_set r key v)).
Proof.
  intros Hd. rewrite obj_set_keys.
  destruct (existsb (jsstr_eqb key) (Object_keys r)) eqn:E; [assumption|].
  apply NoDup_app; [assumption | repeat constructor; simpl; tauto |].
  intros x Hx [<- | []].
  apply existsb_jsstr_eqb in Hx. congruence.
Qed.

(** Every value of the row after an assignment is the assigned one or was
    there before. *)
Lemma obj_set_values (r : Row) (key : JsString) (v w : JsValue) :
  In w (Object_values (obj_set r key v)) -> w = v \/ In w (Object_values r).
Proof.
  induction r as [|[k u] r IH]; simpl.
  - intros [<- | []]. left; reflexivity.
  - destruct (jsstr_eqb k key); simpl.
    + intros [<- | Hin]; [left; reflexivity | right; right; assumption].
    + intros [<- | Hin]; [right; left; reflexivity|].
      destruct (IH Hin); [left | right; right]; assumption.
Qed.

Lemma obj_get_set (r : Row) (key key' : JsString) (v : JsValue) :
  obj_get (obj_set r key v) key'
  = if jsstr_eqb key key' then v else obj_get r key'.
Proof.
  induction r as [|[k u] r IH]; simpl; [reflexivity|].
  destruct (jsstr_eqb k key) eqn:E; simpl.
  - apply jsstr_eqb_eq in E. subst k.
    destruct (jsstr_eqb key key'); reflexivity.
  - destruct (jsstr_eqb k key') eqn:E'.
    + apply jsstr_eqb_eq in E'. subst k. rewrite jsstr_eqb_neq in E.
      destruct (jsstr_eqb key key') eqn:E''; [|reflexivity].
      apply jsstr_eqb_eq in E''. congruence.
    + apply IH.
Qed.

(** The loop body by cases on the value: only objects are rewritten. *)
Lemma sanitizeValue_cases (v : JsValue) :
  Sanitizer.sanitizeValue v
  = match v with
    | VObject o =>
        if has_typeof_marker o then Normal (VString Sanitizer.REACT_ELEMENT)
        else JSON_stringify v
    | _ => Normal v
    end.
Proof.
  destruct v; unfold Sanitizer.sanitizeValue; simpl;
    rewrite ?andb_false_r; reflexivity.
Qed.

Lemma chart_sanitizeValue_cases (v : JsValue) :
  ChartView.sanitizeValue v
  = match v with
    | VObject o =>
        if has_typeof_marker o then Normal VNull else JSON_stringify v
    | _ => Normal v
    end.
Proof.
  destruct v; unfold ChartView.sanitizeValue; simpl;
    rewrite ?andb_false_r; reflexivity.
Qed.

(** ** The sanitizing loop *)

Section Loop.
Import Sanitizer.
Variable f : JsValue -> Completion JsValue.

Lemma forEach_entry_total (entries : list (JsString * JsValue)) :
  (forall k v, In (k, v) entries -> exists w, f v = Normal w) ->
  forall acc, exists out, forEach_entry f entries acc = Normal out.
Proof.
  induction entries as [|[k v] rest IH]; simpl; intros Hf acc.
  - eexists; reflexivity.
  - destruct (Hf k v (or_introl eq_refl)) as [w ->]. simpl.
    apply IH. intros k' v' Hin. apply (Hf k' v'). right; assumption.
Qed.

Lemma forEach_entry_NoDup (entries : list (JsString * JsValue)) :
  forall acc out,
    forEach_entry f entries acc = Normal out ->
    NoDup (Object_keys acc) -> NoDup (Object_keys out).
Proof.
  induction entries as [|[k v] rest IH]; simpl; intros acc out H Hd.
  - injection H as <-. assumption.
  - destruct (f v) as [w|]; simpl in H; [|discriminate].
    apply (IH _ _ H). apply obj_set_NoDup. assumption.
Qed.

(** Where every value of the result comes from. *)
Lemma forEach_entry_values (entries : list (JsString * JsValue)) :
  forall acc out,
    forEach_entry f entries acc = Normal out ->
    forall w, In w (Object_values out) ->
      In w (Object_values acc)
      \/ exists k v, In (k, v) entries /\ f v = Normal w.
Proof.
  induction entries as [|[k v] rest IH]; simpl; intros acc out H w Hw.
  - injection H as <-. left; assumption.
  - destruct (f v) as [u|] eqn:Ef; simpl in H; [|discriminate].
    destruct (IH _ _ H w Hw) as [Hacc | (k' & v' & Hin & E)].
    + destruct (obj_set_values _ _ _ _ Hacc) as [-> | Hold].
      * right. exists k, v. split; [left; reflexivity | assumption].
      * left; assumption.
    + right. exists k', v'. split; [right|]; assumption.
Qed.

Lemma forEach_entry_get_other (entries : list (JsString * JsValue)) :
  forall acc out key,
    forEach_entry f entries acc = Normal out ->
    ~ In key (Object_keys entries) ->
    obj_get out key = obj_get acc key.
Proof.
  induction entries as [|[k v] rest IH]; simpl; intros acc out key H Hn.
  - injection H as <-. reflexivity.
  - destruct (f v) as [u|]; simpl in H; [|discriminate].
    rewrite (IH _ _ key H) by tauto.
    rewrite obj_get_set.
    destruct (jsstr_eqb k key) eqn:E; [|reflexivity].
    apply jsstr_eqb_eq in E. tauto.
Qed.

(** The value under a key of the result is the sanitized value of the
    entry with that key. *)
Lemma forEach_entry_get (entries : list (JsString * JsValue)) :
  NoDup (Object_keys entries) ->
  forall acc out key v,
    forEach_entry f entries acc = Normal out ->
    In (key, v) entries ->
    f v = Normal (obj_get out key).
Proof.
  induction entries as [|[k u] rest IH]; simpl; intros Hd acc out key v H Hin.
  - contradiction.
  - inversion_clear Hd as [|? ? Hk Hd'].
    destruct (f u) as [w|] eqn:Ef; simpl in H; [|discriminate].
    destruct Hin as [E | Hin].
    + injection E as -> ->.
      rewrite (forEach_entry_get_other _ _ _ H Hk), obj_get_set,
        jsstr_eqb_refl. assumption.
    + apply (IH Hd' _ _ _ _ H Hin).
Qed.

(** With distinct keys the loop keeps the keys in their order. *)
Lemma forEach_entry_keys (entries : list (JsString * JsValue)) :
  forall acc out,
    forEach_entry f entries acc = Normal out ->
    NoDup (Object_keys acc ++ Object_keys entries) ->
    Object_keys out = Object_keys acc ++ Object_keys entries.
Proof.
  induction entries as [|[k v] rest IH]; simpl; intros acc out H Hd.
  - injection H as <-. rewrite app_nil_r. reflexivity.
  - destruct (f v) as [w|]; simpl in H; [|discriminate].
    assert (Hfresh : ~ In k (Object_keys acc)).
    { intros Hin. apply NoDup_remove_2 in Hd. apply Hd.
      apply in_or_app. left; assumption. }
    assert (Hset : obj_set acc k w = acc ++ [(k, w)])
      by (apply obj_set_fresh; assumption).
    rewrite Hset in H.
    rewrite (IH _ _ H); unfold Object_keys in *; rewrite map_app; simpl;
      rewrite <- app_assoc; simpl; [reflexivity | assumption].
Qed.
End Loop.

(** The sanitized record has the keys of the raw one, in their order. *)
Lemma sanitize_keeps_keys (raw out : Row) :
  distinct (Object_keys raw) = true ->
  Sanitizer.sanitize raw = Normal out ->
  Object_keys out = Object_keys raw.
Proof.
  intros Hd H. apply distinct_NoDup in Hd.
  apply (forEach_entry_keys Sanitizer.sanitizeValue raw [] H Hd).
Qed.

(** ** The record sanitizer (claims C2 and C3) *)

Lemma serialisable_In (raw : Row) (o : JsObject) :
  serialisable raw = true -> In (VObject o) (Object_values raw) ->
  has_typeof_marker o = false -> exists r, json_text o = Normal r.
Proof.
  unfold serialisable. rewrite forallb_forall. intros H Hin Hm.
  specialize (H _ Hin). simpl in H. rewrite Hm in H. simpl in H.
  destruct (json_text o) as [r|]; [eexists; reflexivity | discriminate].
Qed.

Lemma JSON_stringify_no_object (v w : JsValue) :
  JSON_stringify v = Normal w -> is_object w = false.
Proof.
  destruct v; simpl; intros E; try discriminate;
    try (injection E as <-; reflexivity).
  destruct (json_text o) as [[text|]|]; simpl in E;
    try discriminate; injection E as <-; reflexivity.
Qed.

Lemma sanitizeValue_no_object (v w : JsValue) :
  Sanitizer.sanitizeValue v = Normal w -> is_object w = false.
Proof.
  rewrite sanitizeValue_cases.
  destruct v; intros E; try (injection E as <-; reflexivity).
  destruct (has_typeof_marker o); [injection E as <-; reflexivity|].
  apply (JSON_stringify_no_object _ E).
Qed.

(** The three copies of the loop compute the same record. *)
Lemma sanitize_paths (raw : Row) :
  Sanitizer.sanitizeParsed (Sanitizer.RowObject raw) = Sanitizer.sanitize raw
  /\ Home.sanitizeExported (Sanitizer.RowObject raw) = Sanitizer.sanitize raw.
Proof. split; reflexivity. Qed.

(** The sanitizer can throw: a cyclic structure makes [JSON.stringify]
    raise a [TypeError], and nothing in the loop catches it. *)
Lemma sanitize_can_throw :
  Sanitizer.sanitize Samples.with_cycle
  = Throw (str "Converting circular structure to JSON").
Proof. reflexivity. Qed.

(** C2, as stated, fails: a function among the raw values is not of type
    object, so the loop passes it through, and the sanitized record holds a
    value that is neither a string nor [null]. *)
Lemma sanitize_keeps_function :
  Sanitizer.sanitize Samples.with_callback = Normal Samples.with_callback
  /\ forallb safe_scalar (Object_values Samples.with_callback) = false
  /\ typeof (obj_get Samples.with_callback (str "onClick")) = TFunction.
Proof. repeat split. Qed.

(** C2, amended: for every raw record on whose unmarked objects
    [JSON.stringify] returns, [sanitize] returns normally (on the table and
    on the export path alike), and no value of the sanitized record is an
    object or an array: each is the fixed placeholder, or what
    [JSON.stringify] made of an object of the raw record (a text, or
    [undefined]), or a value of the raw record that is not an object, passed
    through as it was. *)
Theorem sanitize_total_no_object (raw : Row) :
  serialisable raw = true ->
  exists out,
    Sanitizer.sanitize raw = Normal out
    /\ Sanitizer.sanitizeParsed (Sanitizer.RowObject raw) = Normal out
    /\ Home.sanitizeExported (Sanitizer.RowObject raw) = Normal out
    /\ forall w, In w (Object_values out) ->
         is_object w = false
         /\ (w = VString Sanitizer.REACT_ELEMENT
             \/ (exists o, In (VObject o) (Object_values raw)
                           /\ JSON_stringify (VObject o) = Normal w)
             \/ In w (Object_values raw)).
Proof.
  intros Hs.
  destruct (forEach_entry_total Sanitizer.sanitizeValue raw) with (acc := @nil (JsString * JsValue))
    as [out Hout].
  { intros k v Hin. rewrite sanitizeValue_cases.
    destruct v; try (eexists; reflexivity).
    destruct (has_typeof_marker o) eqn:Hm; [eexists; reflexivity|].
    destruct (serialisable_In raw o Hs) as [r Hr]; [|assumption|].
    - apply (in_map snd) in Hin. exact Hin.
    - simpl. rewrite Hr. eexists; reflexivity. }
  exists out. repeat split; try exact Hout.
  - destruct (forEach_entry_values _ _ _ Hout w H)
      as [[] | (k & v & Hin & E)].
    apply (sanitizeValue_no_object _ E).
  - destruct (forEach_entry_values _ _ _ Hout w H)
      as [[] | (k & v & Hin & E)].
    apply (in_map snd) in Hin. simpl in Hin.
    rewrite sanitizeValue_cases in E.
    destruct v;
      try (injection E as <-; right; right; exact Hin).
    destruct (has_typeof_marker o);
      [injection E as <-; left; reflexivity|].
    right; left. exists o. split; assumption.
Qed.

Lemma sanitize_total_no_object_witness :
  exists out,
    Sanitizer.sanitize Samples.mixed = Normal out
    /\ Sanitizer.sanitizeParsed (Sanitizer.RowObject Samples.mixed) = Normal out
    /\ Home.sanitizeExported (Sanitizer.RowObject Samples.mixed) = Normal out
    /\ forall w, In w (Object_values out) ->
         is_object w = false
         /\ (w = VString Sanitizer.REACT_ELEMENT
             \/ (exists o, In (VObject o) (Object_values Samples.mixed)
                           /\ JSON_stringify (VObject o) = Normal w)
             \/ In w (Object_values Samples.mixed)).
Proof. apply (sanitize_total_no_object Samples.mixed). reflexivity. Defined.

(** C3, as stated, fails on a non-primitive that is not of type object: a
    function is handed on as it is instead of being replaced by a JSON
    text. *)
Lemma sanitize_value_function :
  is_primitive Samples.callback = false
  /\ typeof Samples.callback = TFunction
  /\ Sanitizer.sanitizeValue Samples.callback = Normal Samples.callback
  /\ ChartView.sanitizeValue Samples.callback = Normal Samples.callback.
Proof. repeat split. Qed.

(** C3, amended: for every value of a raw record, the sanitizer maps an
    object (a non-null value of type object) that carries the
    rendered-element marker to the string "[React Element]" on the table
    and export paths and to [null] on the chart path, maps every other
    object to the result of [JSON.stringify] on it (throwing when that
    throws), and passes every other value, primitive or function, through
    unchanged; in a record with distinct keys the sanitized record holds
    that image under the value's key. *)
Theorem sanitize_value_cases :
  (forall v : JsValue,
     match v with
     | VObject o =>
         if has_typeof_marker o
         then Sanitizer.sanitizeValue v = Normal (VString Sanitizer.REACT_ELEMENT)
              /\ ChartView.sanitizeValue v = Normal VNull
         else Sanitizer.sanitizeValue v = JSON_stringify v
              /\ ChartView.sanitizeValue v = JSON_stringify v
     | _ =>
         Sanitizer.sanitizeValue v = Normal v
         /\ ChartView.sanitizeValue v = Normal v
     end)
  /\ (forall (raw out : Row) (key : JsString) (v : JsValue),
        distinct (Object_keys raw) = true ->
        In (key, v) raw ->
        (Sanitizer.sanitize raw = Normal out ->
         Sanitizer.sanitizeValue v = Normal (obj_get out key))
        /\ (Home.sanitizeExported (Sanitizer.RowObject raw) = Normal out ->
            Sanitizer.sanitizeValue v = Normal (obj_get out key))
        /\ (ChartView.sanitizeRow raw = Normal out ->
            ChartView.sanitizeValue v = Normal (obj_get out key))).
Proof.
  split.
  - intros v. rewrite sanitizeValue_cases, chart_sanitizeValue_cases.
    destruct v; try (split; reflexivity).
    destruct (has_typeof_marker o); split; reflexivity.
  - intros raw out key v Hd Hin. apply distinct_NoDup in Hd.
    repeat split; intros H.
    + apply (@forEach_entry_get Sanitizer.sanitizeValue raw Hd [] out key v H Hin).
    + apply (@forEach_entry_get Sanitizer.sanitizeValue raw Hd [] out key v H Hin).
    + apply (@forEach_entry_get ChartView.sanitizeValue raw Hd [] out key v H Hin).
Qed.

Lemma sanitize_value_cases_witness :
  Sanitizer.sanitizeValue (VObject Samples.element)
  = Normal (obj_get
              [ (str "name", VString (str "Apple"));
                (str "icon", VString Sanitizer.REACT_ELEMENT);
                (str "__parsed_extra", VString (str "[7]"));
                (str "price", VString (str "1.5")) ]
              (str "icon")).
Proof.
  apply (proj2 sanitize_value_cases Samples.mixed _ (str "icon")).
  - reflexivity.
  - right; left; reflexivity.
  - reflexivity.
Defined.

(** ** The chart summary (claims C1 and C10) *)

Lemma Array_map_from_In {A B : Type} (f : A -> N -> B) (l : list A) :
  forall i y, In y (Array_map_from f i l) -> exists x j, In x l /\ y = f x j.
Proof.
  induction l as [|x l IH]; simpl; intros i y; [tauto|].
  intros [<- | Hin].
  - exists x, i. split; [left|]; reflexivity.
  - destruct (IH _ _ Hin) as (x' & j & Hx & ->).
    exists x', j. split; [right; assumption | reflexivity].
Qed.

Lemma In_Array_map_from {A B : Type} (f : A -> N -> B) (l : list A) (x : A) :
  In x l -> forall i, exists j, In (f x j) (Array_map_from f i l).
Proof.
  induction l as [|x' l IH]; simpl; [tauto|].
  intros [-> | Hin] i.
  - exists i. left; reflexivity.
  - destruct (IH Hin (i + 1)%N) as [j Hj]. exists j. right; assumption.
Qed.

(** What a record inherits is a built-in function, the prototype object,
    or nothing: never a number or a string. *)
Lemma inherited_cases (key : JsString) :
  inherited key = VUndefined
  \/ (exists src, inherited key = VFunction src)
  \/ inherited key = VObject Object_prototype.
Proof.
  unfold inherited, native_function.
  destruct (jsstr_eqb key (str "constructor")); [right; left; eexists; reflexivity|].
  destruct (existsb (jsstr_eqb key) PROTOTYPE_METHODS);
    [right; left; eexists; reflexivity|].
  destruct (jsstr_eqb key (str "__proto__")); [right; right; reflexivity|].
  left; reflexivity.
Qed.

(** A value read from a record is one of its own or the inherited one. *)
Lemma obj_get_own_or_inherited (row : Row) (key : JsString) :
  In (key, obj_get row key) row \/ obj_get row key = inherited key.
Proof.
  induction row as [|[k w] row IH]; simpl; [right; reflexivity|].
  destruct (jsstr_eqb k key) eqn:E.
  - apply jsstr_eqb_eq in E. subst. left; left; reflexivity.
  - destruct IH as [IH|IH]; [left; right; exact IH | right; exact IH].
Qed.

(** A number or a string read from a record is a property of its own. *)
Lemma obj_get_data_value (row : Row) (key : JsString) :
  (exists n, obj_get row key = VNumber n)
  \/ (exists s, obj_get row key = VString s) ->
  In (key, obj_get row key) row.
Proof.
  intros H. destruct (obj_get_own_or_inherited row key) as [Hown|Hinh];
    [exact Hown|].
  exfalso. rewrite Hinh in H.
  destruct (inherited_cases key) as [E|[[src E]|E]]; rewrite E in H;
    destruct H as [[? H]|[? H]]; discriminate.
Qed.

Lemma obj_get_data_In (row : Row) (key : JsString) :
  (exists n, obj_get row key = VNumber n)
  \/ (exists s, obj_get row key = VString s) ->
  In key (Object_keys row).
Proof.
  intros H. apply (in_map fst) with (x := (key, obj_get row key)).
  apply obj_get_data_value. exact H.
Qed.

Lemma eligible_is_data (v : JsValue) :
  spec_eligible v ->
  (exists n, v = VNumber n) \/ (exists s, v = VString s).
Proof.
  intros (_ & _ & [[n E]|[s [E _]]]); [left|right]; eexists; exact E.
Qed.

Lemma numeric_in_spec (row0 : Row) (key : JsString) :
  ChartView.numeric_in row0 key = true <-> spec_eligible (obj_get row0 key).
Proof.
  unfold ChartView.numeric_in, spec_eligible.
  destruct (obj_get row0 key) as [| |b|n|z|s|d|src|o]; simpl; split;
    try discriminate;
    try (intros (Hn & Hu & [[n' E] | (s' & E & _)]); congruence).
  - intros _. repeat split; try discriminate. left; eexists; reflexivity.
  - rewrite negb_true_iff. intros E. repeat split; try discriminate.
    right. exists s. split; [reflexivity | assumption].
  - intros (_ & _ & [[n E] | (s' & E & Hs)]); [discriminate|].
    injection E as <-. rewrite Hs. reflexivity.
Qed.

Lemma point_spec (row : Row) (key : JsString) :
  ChartView.point row key = spec_contribution (obj_get row key).
Proof.
  unfold ChartView.point, spec_contribution.
  destruct (obj_get row key); try reflexivity.
  destruct (isNaN (Number_ s)); reflexivity.
Qed.

(** On values that are not objects the chart's loop changes nothing. *)
Lemma chart_loop_identity (entries : list (JsString * JsValue)) :
  forall acc,
    NoDup (Object_keys acc ++ Object_keys entries) ->
    forallb (fun v => negb (is_object v)) (Object_values entries) = true ->
    Sanitizer.forEach_entry ChartView.sanitizeValue entries acc
    = Normal (acc ++ entries).
Proof.
  induction entries as [|[k v] rest IH]; simpl; intros acc Hd Hv.
  - rewrite app_nil_r; reflexivity.
  - apply andb_true_iff in Hv. destruct Hv as [Hv Hrest].
    assert (E : ChartView.sanitizeValue v = Normal v)
      by (rewrite chart_sanitizeValue_cases;
          destruct v; try reflexivity; discriminate).
    rewrite E. simpl.
    rewrite obj_set_fresh.
    + rewrite IH; [rewrite <- app_assoc; reflexivity | | assumption].
      unfold Object_keys in *. rewrite map_app. simpl.
      rewrite <- app_assoc. exact Hd.
    + intros Hin. apply NoDup_remove_2 in Hd. apply Hd.
      apply in_or_app. left; assumption.
Qed.

Lemma chart_sanitizeRow_identity (row : Row) :
  sanitized_row row = true -> ChartView.sanitizeRow row = Normal row.
Proof.
  unfold sanitized_row. rewrite andb_true_iff. intros [Hd Hv].
  apply distinct_NoDup in Hd.
  apply (chart_loop_identity row [] Hd Hv).
Qed.

Lemma chart_sanitizedData_identity (rows : list Row) :
  forallb sanitized_row rows = true ->
  Array_map_throwing ChartView.sanitizeRow rows = Normal rows.
Proof.
  induction rows as [|row rows IH]; simpl; [reflexivity|].
  rewrite andb_true_iff. intros [Hrow Hrows].
  rewrite (chart_sanitizeRow_identity _ Hrow), (IH Hrows). reflexivity.
Qed.

(** What [chartData] returns on a loaded, non-empty, sanitized dataset. *)
Lemma chartData_loaded (st : ChartView.FetchState) (row0 : Row)
  (rest : list Row) :
  ChartView.data st = row0 :: rest ->
  ChartView.loading st = false ->
  ChartView.error_set (ChartView.error st) = false ->
  forallb sanitized_row (ChartView.data st) = true ->
  ChartView.chartData st
  = Normal
      (match ChartView.numericKeys row0 with
       | [] => None
       | keys =>
           Some {|
             ChartView.labels :=
               Array_mapi (fun _ i => ChartView.row_label i) (ChartView.data st);
             ChartView.datasets :=
               Array_mapi
                 (fun key i => {|
                    ChartView.Dataset.label := key;
                    ChartView.Dataset.data :=
                      map (fun row => ChartView.point row key) (ChartView.data st);
                    ChartView.Dataset.backgroundColor := ChartView.hsl i |})
                 keys |}
       end).
Proof.
  intros Hdata Hl He Hs. unfold ChartView.chartData.
  rewrite Hl, He. simpl. rewrite (chart_sanitizedData_identity _ Hs).
  rewrite Hdata. destruct (ChartView.numericKeys row0); reflexivity.
Qed.

(** C1: for every non-empty loaded dataset of sanitized records, a column
    has a series in the chart summary if and only if its value in the
    first record is non-null and is a number or a string that parses fully
    as a number; and the series of every such column is
    aligned with the records, each record contributing its number, or the
    value its fully numeric string parses to, and [null] otherwise. *)
Theorem chart_columns_and_series (st : ChartView.FetchState) (row0 : Row)
  (rest : list Row) :
  ChartView.data st = row0 :: rest ->
  ChartView.loading st = false ->
  ChartView.error_set (ChartView.error st) = false ->
  forallb sanitized_row (ChartView.data st) = true ->
  exists chart,
    ChartView.chartData st = Normal chart
    /\ (forall key, has_series chart key <-> spec_eligible (obj_get row0 key))
    /\ (forall c ds,
          chart = Some c -> In ds (ChartView.datasets c) ->
          ChartView.Dataset.data ds
          = map (fun row => spec_contribution
                              (obj_get row (ChartView.Dataset.label ds)))
                (ChartView.data st)).
Proof.
  intros Hdata Hl He Hs.
  rewrite (chartData_loaded st Hdata Hl He Hs).
  eexists; split; [reflexivity|].
  assert (Hkeys : forall key,
             In key (ChartView.numericKeys row0)
             <-> spec_eligible (obj_get row0 key)).
  { intros key. unfold ChartView.numericKeys.
    rewrite filter_In, numeric_in_spec. split; [tauto|].
    intros H. split; [|assumption].
    apply obj_get_data_In, eligible_is_data, H. }
  split.
  - intros key. rewrite <- Hkeys. unfold has_series.
    destruct (ChartView.numericKeys row0) as [|k keys] eqn:Ek.
    + split; [intros (c & ds & E & _); discriminate | intros []].
    + split.
      * intros (c & ds & E & Hin & Hlabel). injection E as <-.
        cbn [ChartView.datasets] in Hin. unfold Array_mapi in Hin.
        apply Array_map_from_In in Hin.
        destruct Hin as (x & j & Hx & ->). simpl in Hlabel.
        subst x. assumption.
      * intros Hin.
        destruct (In_Array_map_from
                    (fun key i => {|
                       ChartView.Dataset.label := key;
                       ChartView.Dataset.data :=
                         map (fun row => ChartView.point row key)
                             (ChartView.data st);
                       ChartView.Dataset.backgroundColor := ChartView.hsl i |})
                    (k :: keys) key Hin 0%N) as [j Hj].
        eexists; eexists. split; [reflexivity|]. split; [exact Hj|].
        reflexivity.
  - intros c ds E Hin.
    destruct (ChartView.numericKeys row0) as [|k keys]; [discriminate|].
    injection E as <-. cbn [ChartView.datasets] in Hin.
    unfold Array_mapi in Hin. apply Array_map_from_In in Hin.
    destruct Hin as (x & j & _ & ->). simpl.
    apply map_ext. intros row. apply point_spec.
Qed.

Lemma chart_columns_and_series_witness :
  exists chart,
    ChartView.chartData ChartSamples.fruit = Normal chart
    /\ (forall key,
          has_series chart key
          <-> spec_eligible (obj_get ChartSamples.apple key))
    /\ (forall c ds,
          chart = Some c -> In ds (ChartView.datasets c) ->
          ChartView.Dataset.data ds
          = map (fun row => spec_contribution
                              (obj_get row (ChartView.Dataset.label ds)))
                (ChartView.data ChartSamples.fruit)).
Proof.
  apply (chart_columns_and_series ChartSamples.fruit
           (row0 := ChartSamples.apple) (rest := [ChartSamples.banana]));
    reflexivity.
Defined.

(** The scenario of the description: the column "price" is charted with
    the series [1.5, null], and nothing else is. *)
Example chart_of_fruit :
  ChartView.chartData ChartSamples.fruit
  = Normal (Some {|
      ChartView.labels := [str "Row 1"; str "Row 2"];
      ChartView.datasets :=
        [ {| ChartView.Dataset.label := str "price";
             ChartView.Dataset.data := [Some 1.5%float; None];
             ChartView.Dataset.backgroundColor := str "hsl(0, 70%, 50%)" |} ]
    |}).
Proof. reflexivity. Qed.

(** C10: for every loaded dataset of sanitized records whose first record
    maps a column to the empty string, the chart summary has a series for
    that column, and every record whose value at that column is the empty
    string contributes the number 0, not [null], at its position. *)
Theorem empty_string_column_is_charted_as_zero (st : ChartView.FetchState)
  (row0 : Row) (rest : list Row) (key : JsString) :
  ChartView.data st = row0 :: rest ->
  ChartView.loading st = false ->
  ChartView.error_set (ChartView.error st) = false ->
  forallb sanitized_row (ChartView.data st) = true ->
  obj_get row0 key = VString [] ->
  exists c ds,
    ChartView.chartData st = Normal (Some c)
    /\ In ds (ChartView.datasets c)
    /\ ChartView.Dataset.label ds = key
    /\ List.length (ChartView.Dataset.data ds) = List.length (ChartView.data st)
    /\ forall i row,
         nth_error (ChartView.data st) i = Some row ->
         obj_get row key = VString [] ->
         nth_error (ChartView.Dataset.data ds) i = Some (Some 0%float).
Proof.
  intros Hdata Hl He Hs Hempty.
  rewrite (chartData_loaded st Hdata Hl He Hs).
  assert (Hin : In key (ChartView.numericKeys row0)).
  { unfold ChartView.numericKeys. apply filter_In. split.
    - apply obj_get_data_In. right. eexists. exact Hempty.
    - unfold ChartView.numeric_in. rewrite Hempty. reflexivity. }
  destruct (ChartView.numericKeys row0) as [|k keys]; [contradiction|].
  destruct (In_Array_map_from
              (fun key i => {|
                 ChartView.Dataset.label := key;
                 ChartView.Dataset.data :=
                   map (fun row => ChartView.point row key) (ChartView.data st);
                 ChartView.Dataset.backgroundColor := ChartView.hsl i |})
              (k :: keys) key Hin 0%N) as [j Hj].
  eexists; eexists. split; [reflexivity|]. split; [exact Hj|].
  simpl. split; [reflexivity|]. split; [apply length_map|].
  intros i row Hrow Hval. rewrite nth_error_map, Hrow. simpl.
  unfold ChartView.point. rewrite Hval. reflexivity.
Qed.

Lemma empty_string_column_is_charted_as_zero_witness :
  exists c ds,
    ChartView.chartData ChartSamples.notes = Normal (Some c)
    /\ In ds (ChartView.datasets c)
    /\ ChartView.Dataset.label ds = str "note"
    /\ List.length (ChartView.Dataset.data ds)
       = List.length (ChartView.data ChartSamples.notes)
    /\ forall i row,
         nth_error (ChartView.data ChartSamples.notes) i = Some row ->
         obj_get row (str "note") = VString [] ->
         nth_error (ChartView.Dataset.data ds) i = Some (Some 0%float).
Proof.
  apply (empty_string_column_is_charted_as_zero ChartSamples.notes
           (row0 := ChartSamples.blank)
           (rest := [ChartSamples.noted; ChartSamples.blank]));
    reflexivity.
Defined.

(** The series of that dataset: 0 for the two blank notes, [null] for the
    word. *)
Example chart_of_notes :
  option_map
    (fun c => map ChartView.Dataset.data (ChartView.datasets c))
    (match ChartView.chartData ChartSamples.notes with
     | Normal chart => chart
     | Throw _ => None
     end)
  = Some [[Some 0%float; None; Some 0%float]].
Proof. reflexivity. Qed.

(** ** The table filter (claims C6 and C7) *)

Lemma startsWith_spec (s p : JsString) :
  startsWith s p = true <-> exists post, s = p ++ post.
Proof.
  revert s; induction p as [|a p IH]; intros [|b s]; simpl.
  - split; [intros _; exists []; reflexivity | reflexivity].
  - split; [intros _; exists (b :: s); reflexivity | reflexivity].
  - split; [discriminate | intros [post E]; discriminate].
  - rewrite andb_true_iff, N.eqb_eq, IH. split.
    + intros [-> [post ->]]. exists post; reflexivity.
    + intros [post E]. injection E as -> ->. split; [reflexivity|].
      exists post; reflexivity.
Qed.

Lemma includes_spec (s sub : JsString) :
  includes s sub = true <-> exists pre post, s = pre ++ sub ++ post.
Proof.
  induction s as [|c s IH].
  - change (includes [] sub) with (startsWith [] sub || false).
    rewrite orb_false_r, startsWith_spec. split.
    + intros [post E]. exists [], post. exact E.
    + intros (pre & post & E). destruct pre; [|discriminate].
      exists post. exact E.
  - change (includes (c :: s) sub)
      with (startsWith (c :: s) sub || includes s sub).
    rewrite orb_true_iff, startsWith_spec, IH. split.
    + intros [[post E] | (pre & post & E)].
      * exists [], post. exact E.
      * exists (c :: pre), post. simpl. rewrite E. reflexivity.
    + intros (pre & post & E). destruct pre as [|c' pre].
      * left. exists post. exact E.
      * right. injection E as -> E. exists pre, post. exact E.
Qed.

(** A text that contains [p ++ u] contains [p]. *)
Lemma includes_shorter (x p u : JsString) :
  includes x (p ++ u) = true -> includes x p = true.
Proof.
  rewrite !includes_spec. intros (pre & post & ->).
  exists pre, (u ++ post). rewrite <- !app_assoc. reflexivity.
Qed.

Lemma includes_empty (x : JsString) : includes x [] = true.
Proof. destruct x; reflexivity. Qed.

Lemma row_matches_spec (filter : JsString) (row : Row) :
  DataTable.row_matches filter row = true
  <-> exists val, In val (Object_values row) /\ contains_ci (String_ val) filter.
Proof.
  unfold DataTable.row_matches, contains_ci. rewrite existsb_exists.
  split; intros (val & Hin & H); exists val; (split; [assumption|]);
    apply includes_spec; assumption.
Qed.

Lemma row_matches_empty (row : Row) :
  DataTable.row_matches [] row = has_value row.
Proof.
  unfold DataTable.row_matches, has_value.
  destruct (Object_values row) as [|v vs]; [reflexivity|].
  simpl. rewrite includes_empty. reflexivity.
Qed.

Lemma filteredData_loaded (st : DataTable.State) :
  DataTable.loading st = false ->
  ChartView.error_set (DataTable.error st) = false ->
  DataTable.filteredData st
  = List.filter (DataTable.row_matches (DataTable.filter st)) (DataTable.data st).
Proof.
  intros Hl He. unfold DataTable.filteredData. rewrite Hl, He. simpl.
  destruct (DataTable.data st); reflexivity.
Qed.

(** *** The sort rearranges and, without a comparator verdict, keeps the
    order *)

Section SortBasics.
Context {A : Type}.
Variable comparefn : A -> A -> JsNumber.

Lemma insert_Permutation (x : A) (l : list A) :
  Permutation (insert comparefn x l) (x :: l).
Proof.
  induction l as [|y l IH]; simpl; [reflexivity|].
  destruct (before comparefn x y); [reflexivity|].
  rewrite IH. apply perm_swap.
Qed.

Lemma fold_insert_Permutation (l : list A) :
  forall sorted,
    Permutation (fold_left (fun s x => insert comparefn x s) l sorted)
                (sorted ++ l).
Proof.
  induction l as [|x l IH]; simpl; intros sorted.
  - rewrite app_nil_r; reflexivity.
  - rewrite IH, insert_Permutation. apply Permutation_middle.
Qed.

Lemma Array_sort_Permutation (l : list A) :
  Permutation (Array_sort comparefn l) l.
Proof. apply (fold_insert_Permutation l []). Qed.

Lemma insert_last (x : A) (l : list A) :
  (forall y, In y l -> before comparefn x y = false) ->
  insert comparefn x l = l ++ [x].
Proof.
  induction l as [|y l IH]; simpl; intros H; [reflexivity|].
  rewrite (H y (or_introl eq_refl)), IH; [reflexivity|].
  intros z Hz. apply H. right; assumption.
Qed.

Lemma fold_insert_unordered (l : list A) :
  (forall x y, before comparefn x y = false) ->
  forall sorted,
    fold_left (fun s x => insert comparefn x s) l sorted = sorted ++ l.
Proof.
  intros H. induction l as [|x l IH]; simpl; intros sorted.
  - rewrite app_nil_r; reflexivity.
  - rewrite IH, insert_last by (intros; apply H).
    rewrite <- app_assoc. reflexivity.
Qed.
End SortBasics.

Lemma sortedData_Permutation (localeCompare : JsString -> JsString -> JsNumber)
  (st : DataTable.State) :
  Permutation (DataTable.sortedData localeCompare st) (DataTable.filteredData st).
Proof.
  unfold DataTable.sortedData.
  destruct (DataTable.filteredData st) as [|row rows]; [reflexivity|].
  apply Array_sort_Permutation.
Qed.

(** With no sort column the table shows the filtered rows in their
    order. *)
Lemma sortedData_unsorted (localeCompare : JsString -> JsString -> JsNumber)
  (st : DataTable.State) :
  DataTable.sortField st = None ->
  DataTable.sortedData localeCompare st = DataTable.filteredData st.
Proof.
  intros Hn. unfold DataTable.sortedData. rewrite Hn.
  destruct (DataTable.filteredData st) as [|row rows]; [reflexivity|].
  unfold Array_sort. rewrite fold_insert_unordered; reflexivity.
Qed.

Lemma filter_all {A : Type} (f : A -> bool) (l : list A) :
  forallb f l = true -> List.filter f l = l.
Proof.
  induction l as [|x l IH]; simpl; [reflexivity|].
  rewrite andb_true_iff. intros [-> H]. rewrite IH by assumption. reflexivity.
Qed.

(** C6, as stated, fails in its last part: a record with no value at all
    matches no filter, the empty one included, so the empty filter does not
    retain every record of this one-record dataset. *)
Lemma empty_filter_drops_bare_record :
  DataTable.filter (TableSamples.loaded [TableSamples.bare]) = []
  /\ DataTable.data (TableSamples.loaded [TableSamples.bare]) = [TableSamples.bare]
  /\ DataTable.filteredData (TableSamples.loaded [TableSamples.bare]) = []
  /\ DataTable.sortedData code_unit_order
       (TableSamples.loaded [TableSamples.bare]) = [].
Proof. repeat split. Qed.

(** C6, amended: for every loaded dataset and filter string, a record
    appears in the table view if and only if it is a record of the dataset
    and at least one of its values, converted to string form, contains the
    filter as a case-insensitive substring; in particular the empty filter
    retains, in source order, exactly the records that have at least one
    value (every record, when each has one), and with no sort column the
    view shows the retained records in source order. *)
Theorem table_filter_retains_matching_records
  (localeCompare : JsString -> JsString -> JsNumber) (st : DataTable.State) :
  DataTable.loading st = false ->
  ChartView.error_set (DataTable.error st) = false ->
  (forall row,
     In row (DataTable.sortedData localeCompare st)
     <-> In row (DataTable.data st)
         /\ exists val, In val (Object_values row)
                        /\ contains_ci (String_ val) (DataTable.filter st))
  /\ (DataTable.filter st = [] ->
      DataTable.filteredData st = List.filter has_value (DataTable.data st))
  /\ (DataTable.filter st = [] ->
      forallb has_value (DataTable.data st) = true ->
      DataTable.filteredData st = DataTable.data st)
  /\ (DataTable.sortField st = None ->
      DataTable.sortedData localeCompare st = DataTable.filteredData st).
Proof.
  intros Hl He.
  assert (Hempty : DataTable.filter st = [] ->
            DataTable.filteredData st
            = List.filter has_value (DataTable.data st)).
  { intros Hf. rewrite (filteredData_loaded st Hl He), Hf.
    apply filter_ext. exact row_matches_empty. }
  split; [|split; [|split]].
  - intros row.
    assert (Hview : In row (DataTable.sortedData localeCompare st)
                    <-> In row (DataTable.filteredData st)).
    { split; apply Permutation_in;
        [|apply Permutation_sym]; apply sortedData_Permutation. }
    rewrite Hview, (filteredData_loaded st Hl He), filter_In, row_matches_spec.
    reflexivity.
  - exact Hempty.
  - intros Hf Hall. rewrite (Hempty Hf). apply filter_all. assumption.
  - apply sortedData_unsorted.
Qed.

Lemma table_filter_retains_matching_records_witness :
  DataTable.filteredData
    (DataTable.setFilter []
       (TableSamples.loaded [ChartSamples.apple; ChartSamples.banana]))
  = [ChartSamples.apple; ChartSamples.banana].
Proof.
  apply (table_filter_retains_matching_records code_unit_order
           (DataTable.setFilter []
              (TableSamples.loaded [ChartSamples.apple; ChartSamples.banana])));
    reflexivity.
Defined.

(** The scenario of the description: the filter "banana" leaves one row. *)
Example filter_banana :
  DataTable.sortedData code_unit_order
    (DataTable.setFilter (str "banana")
       (TableSamples.loaded [ChartSamples.apple; ChartSamples.banana]))
  = [ChartSamples.banana].
Proof. reflexivity. Qed.

(** *** Narrowing the filter *)

Lemma filter_length_le {A : Type} (f g : A -> bool) (l : list A) :
  (forall x, f x = true -> g x = true) ->
  List.length (List.filter f l) <= List.length (List.filter g l).
Proof.
  intros H. induction l as [|x l IH]; simpl; [lia|].
  destruct (f x) eqn:Ef.
  - rewrite (H x Ef). simpl. lia.
  - destruct (g x); simpl; lia.
Qed.

(** Without a capital sigma lower-casing goes unit by unit, whatever
    surrounds the text. *)
Lemma lower_from_app_no_sigma (s t : JsString) :
  forallb (fun c => negb (c =? CAPITAL_SIGMA)%N) s = true ->
  forall before,
    lower_from before (s ++ t)
    = map lower_unit s ++ lower_from (rev s ++ before) t.
Proof.
  induction s as [|c s IH]; simpl; intros H before; [reflexivity|].
  apply andb_true_iff in H. destruct H as [Hc Hs].
  apply negb_true_iff in Hc. rewrite Hc. rewrite (IH Hs).
  rewrite <- app_assoc. reflexivity.
Qed.

Lemma toLowerCase_prefix_no_sigma (s t : JsString) :
  forallb (fun c => negb (c =? CAPITAL_SIGMA)%N) s = true ->
  startsWith (toLowerCase (s ++ t)) (toLowerCase s) = true.
Proof.
  intros H. apply startsWith_spec. unfold toLowerCase.
  rewrite (lower_from_app_no_sigma s t H).
  pose proof (lower_from_app_no_sigma s [] H []) as E.
  simpl in E. rewrite !app_nil_r in E. rewrite E, app_nil_r.
  eexists; reflexivity.
Qed.

(** C7, as stated, fails: lower-casing is not applied unit by unit.  A
    capital sigma at the end of a word becomes a final sigma, and a sigma
    inside a word a plain one; so the filter "A-Sigma" matches nothing in a
    table whose one record reads "a-sigma-b", while the longer filter
    "A-Sigma-B" matches that record. *)
Lemma longer_filter_retains_more :
  List.length
    (DataTable.filteredData
       (DataTable.setFilter (TableSamples.A_SIGMA ++ TableSamples.B)
          (TableSamples.loaded [TableSamples.sigma_word]))) = 1
  /\ List.length
       (DataTable.filteredData
          (DataTable.setFilter TableSamples.A_SIGMA
             (TableSamples.loaded [TableSamples.sigma_word]))) = 0
  /\ toLowerCase TableSamples.A_SIGMA = [0x61; SMALL_FINAL_SIGMA]%N
  /\ toLowerCase (TableSamples.A_SIGMA ++ TableSamples.B)
     = [0x61; SMALL_SIGMA; 0x62]%N.
Proof. repeat split. Qed.

(** C7, amended: for every dataset and all filter strings [s] and [t] such
    that the lower-cased [s + t] begins with the lower-cased [s] (as it
    does whenever [s] holds no capital sigma), the number of records
    retained by the filter [s + t] is never greater than the number
    retained by the filter [s]. *)
Theorem filter_is_monotone (st : DataTable.State) (s t : JsString) :
  startsWith (toLowerCase (s ++ t)) (toLowerCase s) = true ->
  List.length (DataTable.filteredData (DataTable.setFilter (s ++ t) st))
  <= List.length (DataTable.filteredData (DataTable.setFilter s st)).
Proof.
  intros Hp. apply startsWith_spec in Hp. destruct Hp as [u Hu].
  unfold DataTable.filteredData. simpl.
  destruct (DataTable.loading st || ChartView.error_set (DataTable.error st));
    [simpl; lia|].
  destruct (DataTable.data st) as [|row rows] eqn:Ed; [simpl; lia|].
  apply filter_length_le. intros r. unfold DataTable.row_matches.
  rewrite !existsb_exists. intros (val & Hin & H). exists val.
  split; [assumption|]. rewrite Hu in H. apply (includes_shorter _ _ _ H).
Qed.

Lemma filter_is_monotone_witness :
  List.length
    (DataTable.filteredData
       (DataTable.setFilter (str "ban" ++ str "ana")
          (TableSamples.loaded [ChartSamples.apple; ChartSamples.banana])))
  <= List.length
       (DataTable.filteredData
          (DataTable.setFilter (str "ban")
             (TableSamples.loaded [ChartSamples.apple; ChartSamples.banana]))).
Proof.
  apply (filter_is_monotone
           (TableSamples.loaded [ChartSamples.apple; ChartSamples.banana])
           (str "ban") (str "ana")).
  reflexivity.
Defined.

(** ** The table sort (claims C4 and C5) *)



(** *** Where the sort puts the elements that the comparator singles out *)


Section Placement.
Context {A : Type}.
Variable comparefn : A -> A -> JsNumber.
Variable low : A -> bool.





End Placement.




(** The record without a value comes first when ascending and last when
    descending; a record that lacks a column called [constructor] reads
    the inherited function under that name and is sorted by its text. *)
Example missing_value_in_the_view :
  DataTable.sortedData code_unit_order
    (SortSamples.by_b [SortSamples.full; SortSamples.short_y])
  = [SortSamples.short_y; SortSamples.full]
  /\ DataTable.sortedData code_unit_order
       (with_sortAsc false
          (SortSamples.by_b [SortSamples.short_y; SortSamples.full]))
     = [SortSamples.full; SortSamples.short_y]
  /\ obj_get SortSamples.short_y (str "constructor")
     = VFunction (str "function Object() { [native code] }")
  /\ DataTable.compareRows code_unit_order (Some (str "constructor")) true
       SortSamples.short_y SortSamples.short_z = 0%float.
Proof. repeat split. Qed.

(** Numbers by difference, dates by time value, an invalid date by its
    string form. *)
Example comparator_cases :
  DataTable.compareRows code_unit_order (Some (str "b")) true
    (SortSamples.priced 2%float) (SortSamples.priced 10%float) = (-8)%float
  /\ DataTable.compareRows code_unit_order (Some (str "b")) false
       (SortSamples.priced 2%float) (SortSamples.priced 10%float) = 8%float
  /\ DataTable.compareRows code_unit_order (Some (str "b")) true
       (SortSamples.dated SortSamples.new_year)
       (SortSamples.dated SortSamples.new_year) = 0%float
  /\ DataTable.compareRows code_unit_order (Some (str "b")) true
       (SortSamples.dated SortSamples.invalid_date)
       (SortSamples.dated SortSamples.new_year) = (-1)%float.
Proof. repeat split. Qed.

(** C5 fails on the code: when two records both lack a value under the
    sort column the comparator answers -1 whichever way they are asked
    for, so it puts each of the two before the other and is no order.  On
    the three rows of ["a,b\nx,1\ny\nz\n"], sorted by the column [b]
    ascending, the table shows z, y, x; sorting that sequence again with
    the same key and flag gives y, z, x. *)
Theorem sort_is_no_order_on_missing_values
  (localeCompare : JsString -> JsString -> JsNumber) :
  let cmp := DataTable.compareRows localeCompare (Some (str "b")) true in
  let rows := [SortSamples.full; SortSamples.short_y; SortSamples.short_z] in
  cmp SortSamples.short_y SortSamples.short_z = (-1)%float
  /\ cmp SortSamples.short_z SortSamples.short_y = (-1)%float
  /\ before cmp SortSamples.short_y SortSamples.short_z = true
  /\ before cmp SortSamples.short_z SortSamples.short_y = true
  /\ DataTable.sortedData localeCompare (SortSamples.by_b rows)
     = [SortSamples.short_z; SortSamples.short_y; SortSamples.full]
  /\ DataTable.sortedData localeCompare
       (SortSamples.by_b (DataTable.sortedData localeCompare (SortSamples.by_b rows)))
     = [SortSamples.short_y; SortSamples.short_z; SortSamples.full].
Proof. repeat split. Qed.

(** ** The export handler (claims C8 and C9) *)

(** C8: for every export in which the file is fetched and parsed without
    error and the CSV serialization throws, the page ends with the export
    error set to its one message and the three other error fields clear,
    the source path and with it the table (dataset, filter, sort) and the
    chart are as before, and nothing is downloaded. *)
Theorem export_failure_is_contained (env : Home.Env) (app : Home.App)
  (response : Home.Response) (csvText : JsString)
  (results : Home.ParseResults) (sanitizedData : list Row)
  (message : JsString) :
  jsstr_eqb (Home.csvFilePath (Home.home app)) [] = false ->
  Home.fetch env (Home.csvFilePath (Home.home app))
  = Home.FetchResolved response ->
  Home.ok response = true ->
  Home.text response = Normal csvText ->
  Home.Papa_parse env csvText = Home.ParseComplete results ->
  Home.results_errors results = [] ->
  Array_map_throwing Home.sanitizeExported (Home.results_data results)
  = Normal sanitizedData ->
  Home.Parser_parse env sanitizedData = Throw message ->
  exists home' effects,
    Home.click_export env app
    = ({| Home.home := home';
          Home.table := Home.table app;
          Home.chart := Home.chart app |}, effects)
    /\ Home.exportError home' = Some Home.EXPORT_FAILED
    /\ Home.csvError home' = None
    /\ Home.fetchError home' = None
    /\ Home.parseError home' = None
    /\ Home.csvFilePath home' = Home.csvFilePath (Home.home app)
    /\ existsb Home.is_download effects = false.
Proof.
  intros Hpath Hfetch Hok Htext Hparse Herrors Hsanitize Hthrow.
  unfold Home.click_export, Home.handleExport. rewrite Hpath.
  cbn [Home.csvFilePath Home.with_exportError Home.with_parseError
       Home.with_fetchError Home.with_csvError].
  rewrite Hfetch, Hok. cbn [negb]. rewrite Htext, Hparse.
  unfold Home.complete. rewrite Herrors, Hsanitize. cbn [bind].
  rewrite Hthrow.
  eexists; eexists. split; [reflexivity|]. repeat split.
Qed.

Lemma export_failure_is_contained_witness :
  exists home' effects,
    Home.click_export ExportSamples.failing_serializer ExportSamples.fresh
    = ({| Home.home := home';
          Home.table := Home.table ExportSamples.fresh;
          Home.chart := Home.chart ExportSamples.fresh |}, effects)
    /\ Home.exportError home' = Some Home.EXPORT_FAILED
    /\ Home.csvError home' = None
    /\ Home.fetchError home' = None
    /\ Home.parseError home' = None
    /\ Home.csvFilePath home' = Home.csvFilePath (Home.home ExportSamples.fresh)
    /\ existsb Home.is_download effects = false.
Proof.
  apply (@export_failure_is_contained ExportSamples.failing_serializer
           ExportSamples.fresh
           {| Home.ok := true; Home.status := 200;
              Home.text := Normal (str "name,price") |}
           (str "name,price") ExportSamples.parsed_fruit
           [ChartSamples.apple; ChartSamples.banana]
           (str "Data should not be empty"));
    reflexivity.
Defined.

(** When nothing fails the handler downloads the serialized text under
    the fixed name and touches no error field. *)
Example export_succeeds :
  Home.click_export
    {| Home.fetch := fun _ => ExportSamples.served (str "name,price");
       Home.Papa_parse := fun _ => Home.ParseComplete ExportSamples.parsed_fruit;
       Home.Parser_parse := fun _ => Normal (str "csv") |}
    ExportSamples.fresh
  = (ExportSamples.fresh,
     [ Home.FetchRequest (str "/2017PurchasePricesDec.csv");
       Home.Download (str "sustainity-data.csv") (str "csv") ]).
Proof. reflexivity. Qed.

(** C9, as stated, fails: the handler looks at the source path, not at the
    rows.  On the freshly rendered page no row is loaded, yet the default
    path is set; an export then goes on to fetch, and when the file is not
    found it is the fetch error that is reported, not the selection
    error. *)
Lemma export_without_rows_reports_no_selection_error :
  DataTable.data (Home.table ExportSamples.fresh) = []
  /\ Home.csvError
       (Home.home (fst (Home.click_export ExportSamples.missing_file
                          ExportSamples.fresh))) = None
  /\ Home.fetchError
       (Home.home (fst (Home.click_export ExportSamples.missing_file
                          ExportSamples.fresh)))
     = Some (str "Error fetching CSV file: Network response was not ok: 404")
  /\ snd (Home.click_export ExportSamples.missing_file ExportSamples.fresh)
     = [ Home.FetchRequest (str "/2017PurchasePricesDec.csv");
         Home.ConsoleError (str "Error fetching CSV:") ].
Proof. repeat split. Qed.

(** C9, amended: when export is invoked while no CSV source is selected
    (the source path is empty), the page reports the selection error
    "Please upload a CSV file first.", leaves everything else as it was,
    and starts neither a fetch nor a download. *)
Theorem export_without_source_is_refused (env : Home.Env) (app : Home.App) :
  Home.csvFilePath (Home.home app) = [] ->
  Home.click_export env app
  = ({| Home.home :=
          Home.with_csvError
            (Some (str "Please upload a CSV file first.")) (Home.home app);
        Home.table := Home.table app;
        Home.chart := Home.chart app |}, []).
Proof.
  intros Hpath. unfold Home.click_export, Home.handleExport.
  rewrite Hpath. reflexivity.
Qed.

Lemma export_without_source_is_refused_witness :
  Home.click_export ExportSamples.missing_file ExportSamples.unselected
  = ({| Home.home :=
          Home.with_csvError
            (Some (str "Please upload a CSV file first."))
            (Home.home ExportSamples.unselected);
        Home.table := Home.table ExportSamples.unselected;
        Home.chart := Home.chart ExportSamples.unselected |}, []).
Proof.
  apply (export_without_source_is_refused ExportSamples.missing_file
           ExportSamples.unselected).
  reflexivity.
Defined.

(** ** The sort under a comparator that is an order *)

Section SortOrder.
Context {A : Type}.
Variable comparefn : A -> A -> JsNumber.
Variable P : A -> Prop.

Hypothesis before_asym :
  forall x y, P x -> P y ->
    before comparefn x y = true -> before comparefn y x = false.
Hypothesis before_trans :
  forall x y z, P x -> P y -> P z ->
    before comparefn x y = true -> before comparefn y z = true ->
    before comparefn x z = true.

Lemma insert_In (x z : A) (l : list A) :
  In z (insert comparefn x l) <-> z = x \/ In z l.
Proof.
  split; intros H.
  - apply (Permutation_in _ (insert_Permutation comparefn x l)) in H.
    destruct H; [left; symmetry|right]; assumption.
  - apply (Permutation_in _ (Permutation_sym (insert_Permutation comparefn x l))).
    destruct H; [left; symmetry|right]; assumption.
Qed.

Lemma insert_arranged (x : A) (l : list A) :
  P x -> Forall P l -> arranged comparefn l ->
  arranged comparefn (insert comparefn x l).
Proof.
  intros Px. induction l as [|y l IH]; simpl; intros HP Hs.
  - repeat constructor.
  - inversion_clear HP as [|? ? Py HPl].
    inversion_clear Hs as [|? ? Hsl Hy].
    destruct (before comparefn x y) eqn:Exy.
    + constructor; [constructor; assumption|].
      constructor.
      * apply (before_asym Px Py Exy).
      * rewrite Forall_forall in *. intros z Hz. unfold in_order.
        destruct (before comparefn z x) eqn:Ezx; [|reflexivity].
        rewrite <- (Hy z Hz). symmetry.
        apply (before_trans (HPl z Hz) Px Py Ezx Exy).
    + constructor; [apply IH; assumption|].
      rewrite Forall_forall in *. intros z Hz.
      apply insert_In in Hz. destruct Hz as [-> | Hz];
        [exact Exy | apply Hy; assumption].
Qed.

Lemma fold_insert_arranged (l : list A) :
  forall sorted,
    Forall P l -> Forall P sorted -> arranged comparefn sorted ->
    arranged comparefn (fold_left (fun s x => insert comparefn x s) l sorted).
Proof.
  induction l as [|x l IH]; simpl; intros sorted HPl HPs Hs; [assumption|].
  inversion_clear HPl as [|? ? Px HPl'].
  apply IH; [assumption | | apply insert_arranged; assumption].
  rewrite Forall_forall in *. intros z Hz. apply insert_In in Hz.
  destruct Hz as [-> | Hz]; [assumption | apply HPs; assumption].
Qed.

(** The result of the sort is arranged. *)
Lemma Array_sort_arranged (l : list A) :
  Forall P l -> arranged comparefn (Array_sort comparefn l).
Proof.
  intros HP. apply fold_insert_arranged; [assumption | constructor | constructor].
Qed.

Lemma arranged_app_last (sorted : list A) (x : A) (l : list A) :
  arranged comparefn (sorted ++ x :: l) ->
  forall y, In y sorted -> before comparefn x y = false.
Proof.
  induction sorted as [|a sorted IH]; simpl; intros Hs y Hy; [contradiction|].
  inversion_clear Hs as [|? ? Hs' Ha].
  destruct Hy as [<- | Hy]; [|apply IH; assumption].
  rewrite Forall_forall in Ha. apply Ha. apply in_or_app. right; left; reflexivity.
Qed.

(** An arranged sequence is left as it is. *)
Lemma fold_insert_fixpoint (l : list A) :
  forall sorted,
    arranged comparefn (sorted ++ l) ->
    fold_left (fun s x => insert comparefn x s) l sorted = sorted ++ l.
Proof.
  induction l as [|x l IH]; simpl; intros sorted Hs.
  - rewrite app_nil_r; reflexivity.
  - rewrite insert_last
      by (intros y Hy; eapply arranged_app_last; eassumption).
    rewrite IH; rewrite <- app_assoc; [reflexivity | exact Hs].
Qed.

Lemma Array_sort_fixpoint (l : list A) :
  arranged comparefn l -> Array_sort comparefn l = l.
Proof. intros Hs. apply (fold_insert_fixpoint l [] Hs). Qed.

Lemma Array_sort_idempotent (l : list A) :
  Forall P l ->
  Array_sort comparefn (Array_sort comparefn l) = Array_sort comparefn l.
Proof.
  intros HP. apply Array_sort_fixpoint, Array_sort_arranged. assumption.
Qed.

(** In an arranged sequence an element that the comparator puts strictly
    before another stands before it. *)
Lemma arranged_precedes (l : list A) (x y : A) :
  Forall P l -> arranged comparefn l -> In x l -> In y l ->
  before comparefn x y = true -> precedes x y l.
Proof.
  intros HP Hs Hx Hy Exy. induction l as [|a l IH]; [contradiction|].
  inversion_clear HP as [|? ? Pa HPl].
  inversion_clear Hs as [|? ? Hsl Ha].
  rewrite Forall_forall in Ha, HPl.
  assert (Hxy : forall z, In z l -> z = y -> a = x -> precedes x y (a :: l)).
  { intros z Hz -> ->. destruct (in_split _ _ Hz) as (l2 & l3 & ->).
    exists [], l2, l3. reflexivity. }
  destruct Hx as [Hx | Hx], Hy as [Hy | Hy].
  - subst a. subst y. rewrite (before_asym Pa Pa Exy) in Exy. discriminate.
  - apply (Hxy y Hy eq_refl Hx).
  - subst a. rewrite (Ha x Hx) in Exy. discriminate.
  - destruct (IH (proj2 (Forall_forall _ _) HPl) Hsl Hx Hy)
      as (l1 & l2 & l3 & ->).
    exists (a :: l1), l2, l3. reflexivity.
Qed.
End SortOrder.

(** *** The sample collation is a strict order *)

Lemma code_unit_order_asym (a b : JsString) :
  PrimFloat.ltb (code_unit_order a b) 0 = true ->
  PrimFloat.ltb (code_unit_order b a) 0 = false.
Proof.
  revert b. induction a as [|x a IH]; intros [|y b]; simpl;
    try discriminate; try reflexivity.
  destruct (x <? y)%N eqn:Exy; destruct (y <? x)%N eqn:Eyx;
    try discriminate; try reflexivity.
  - apply N.ltb_lt in Exy. apply N.ltb_lt in Eyx. lia.
  - apply IH.
Qed.

Lemma code_unit_order_trans (a b c : JsString) :
  PrimFloat.ltb (code_unit_order a b) 0 = true ->
  PrimFloat.ltb (code_unit_order b c) 0 = true ->
  PrimFloat.ltb (code_unit_order a c) 0 = true.
Proof.
  revert b c. induction a as [|x a IH]; intros [|y b] [|z c]; simpl;
    try discriminate; try reflexivity.
  destruct (x <? y)%N eqn:Exy; [|destruct (y <? x)%N eqn:Eyx];
    try discriminate;
    (destruct (y <? z)%N eqn:Eyz; [|destruct (z <? y)%N eqn:Ezy]);
    try discriminate;
    rewrite ?N.ltb_lt, ?N.ltb_ge in *; intros H1 H2.
  - assert (E : (x <? z)%N = true) by (apply N.ltb_lt; lia).
    rewrite E. reflexivity.
  - assert (E : (x <? z)%N = true) by (apply N.ltb_lt; lia).
    rewrite E. reflexivity.
  - assert (E : (x <? z)%N = true) by (apply N.ltb_lt; lia).
    rewrite E. reflexivity.
  - assert (x = y) by lia. assert (y = z) by lia. subst y z.
    rewrite N.ltb_irrefl. apply (IH b c H1 H2).
Qed.

(** *** The table sorted by a column of strings *)

Section TableOrder.
Variable localeCompare : JsString -> JsString -> JsNumber.
Variable field : JsString.

Hypothesis collation_asym :
  forall s t,
    PrimFloat.ltb (localeCompare s t) 0 = true ->
    PrimFloat.ltb (localeCompare t s) 0 = false.
Hypothesis collation_trans :
  forall s t u,
    PrimFloat.ltb (localeCompare s t) 0 = true ->
    PrimFloat.ltb (localeCompare t u) 0 = true ->
    PrimFloat.ltb (localeCompare s u) 0 = true.
Hypothesis field_set : jsstr_eqb field [] = false.

Let complete (row : Row) : Prop := has_string_under field row = true.

Lemma before_strings (sortAsc : bool) (a b : Row) :
  complete a -> complete b ->
  before (DataTable.compareRows localeCompare (Some field) sortAsc) a b
  = if sortAsc
    then PrimFloat.ltb
           (localeCompare (String_ (obj_get a field)) (String_ (obj_get b field))) 0
    else PrimFloat.ltb
           (localeCompare (String_ (obj_get b field)) (String_ (obj_get a field))) 0.
Proof.
  unfold complete, has_string_under, before, DataTable.compareRows.
  rewrite field_set.
  destruct (obj_get a field); try discriminate.
  destruct (obj_get b field); try discriminate.
  intros _ _. destruct sortAsc; reflexivity.
Qed.

Lemma before_strings_asym (sortAsc : bool) (a b : Row) :
  complete a -> complete b ->
  before (DataTable.compareRows localeCompare (Some field) sortAsc) a b = true ->
  before (DataTable.compareRows localeCompare (Some field) sortAsc) b a = false.
Proof.
  intros Ha Hb. rewrite !before_strings by assumption.
  destruct sortAsc; apply collation_asym.
Qed.

Lemma before_strings_trans (sortAsc : bool) (a b c : Row) :
  complete a -> complete b -> complete c ->
  before (DataTable.compareRows localeCompare (Some field) sortAsc) a b = true ->
  before (DataTable.compareRows localeCompare (Some field) sortAsc) b c = true ->
  before (DataTable.compareRows localeCompare (Some field) sortAsc) a c = true.
Proof.
  intros Ha Hb Hc. rewrite !before_strings by assumption.
  destruct sortAsc; intros H1 H2.
  - apply (collation_trans H1 H2).
  - apply (collation_trans H2 H1).
Qed.

(** Reversing the flag exchanges the two sides. *)
Lemma before_strings_reversed (sortAsc : bool) (a b : Row) :
  complete a -> complete b ->
  before (DataTable.compareRows localeCompare (Some field) (negb sortAsc)) b a
  = before (DataTable.compareRows localeCompare (Some field) sortAsc) a b.
Proof.
  intros Ha Hb. rewrite !before_strings by assumption.
  destruct sortAsc; reflexivity.
Qed.

Lemma filteredData_complete (st : DataTable.State) :
  forallb (has_string_under field) (DataTable.data st) = true ->
  Forall complete (DataTable.filteredData st).
Proof.
  intros H. rewrite forallb_forall in H. apply Forall_forall.
  intros row Hin. apply H. unfold DataTable.filteredData in Hin.
  destruct (DataTable.loading st || ChartView.error_set (DataTable.error st));
    [contradiction|].
  destruct (DataTable.data st); [contradiction|].
  apply filter_In in Hin. tauto.
Qed.

Lemma sortedData_Array_sort (st : DataTable.State) :
  DataTable.sortedData localeCompare st
  = Array_sort
      (DataTable.compareRows localeCompare (DataTable.sortField st)
         (DataTable.sortAsc st))
      (DataTable.filteredData st).
Proof.
  unfold DataTable.sortedData.
  destruct (DataTable.filteredData st); reflexivity.
Qed.

(** X1: for a table sorted by a column under which every record has a
    string, with a collation that is a strict order: the view is a
    rearrangement of the filtered records in which no record is followed by
    one that the comparator puts before it; sorting the view again with the
    same column and flag leaves it as it is; and every pair of records that
    the comparator does not tie stands in the opposite order once the
    ascending flag is reversed. *)
Theorem sort_by_string_column_is_an_order (st : DataTable.State) :
  DataTable.sortField st = Some field ->
  forallb (has_string_under field) (DataTable.data st) = true ->
  let cmp :=
    DataTable.compareRows localeCompare (Some field) (DataTable.sortAsc st) in
  let view := DataTable.sortedData localeCompare st in
  let reversed :=
    DataTable.sortedData localeCompare
      (with_sortAsc (negb (DataTable.sortAsc st)) st) in
  Permutation view (DataTable.filteredData st)
  /\ arranged cmp view
  /\ Array_sort cmp view = view
  /\ (forall x y,
        In x view -> In y view -> before cmp x y = true ->
        precedes x y view /\ precedes y x reversed).
Proof.
  intros Hfield Hrows cmp view reversed.
  pose proof (filteredData_complete st Hrows) as Hcomplete.
  assert (Hview : view = Array_sort cmp (DataTable.filteredData st)).
  { unfold view, cmp. rewrite sortedData_Array_sort, Hfield. reflexivity. }
  assert (Hreversed :
            reversed
            = Array_sort
                (DataTable.compareRows localeCompare (Some field)
                   (negb (DataTable.sortAsc st)))
                (DataTable.filteredData st)).
  { unfold reversed. rewrite sortedData_Array_sort. simpl.
    rewrite Hfield. reflexivity. }
  assert (Harranged : arranged cmp view).
  { rewrite Hview.
    apply (Array_sort_arranged (P := complete));
      [apply before_strings_asym | apply before_strings_trans | assumption]. }
  assert (Hperm : Permutation view (DataTable.filteredData st))
    by (rewrite Hview; apply Array_sort_Permutation).
  assert (Hall : Forall complete view).
  { apply Forall_forall. intros row Hin.
    rewrite Forall_forall in Hcomplete. apply Hcomplete.
    apply (Permutation_in _ Hperm Hin). }
  split; [exact Hperm|]. split; [exact Harranged|].
  split; [apply Array_sort_fixpoint; exact Harranged|].
  intros x y Hx Hy Hxy. rewrite Forall_forall in Hall. split.
  - apply (arranged_precedes (P := complete) (comparefn := cmp));
      try assumption;
      [apply before_strings_asym | apply Forall_forall; assumption].
  - rewrite Hreversed.
    assert (Hin : forall z, In z view ->
              In z (Array_sort
                      (DataTable.compareRows localeCompare (Some field)
                         (negb (DataTable.sortAsc st)))
                      (DataTable.filteredData st))).
    { intros z Hz.
      apply (Permutation_in _ (Permutation_sym (Array_sort_Permutation _ _))).
      apply (Permutation_in _ Hperm Hz). }
    apply (arranged_precedes (P := complete)
             (comparefn :=
                DataTable.compareRows localeCompare (Some field)
                  (negb (DataTable.sortAsc st)))).
    + apply before_strings_asym.
    + apply Forall_forall. intros z Hz. rewrite Forall_forall in Hcomplete.
      apply Hcomplete.
      apply (Permutation_in _ (Array_sort_Permutation _ _) Hz).
    + apply (Array_sort_arranged (P := complete));
        [apply before_strings_asym | apply before_strings_trans | assumption].
    + apply Hin; assumption.
    + apply Hin; assumption.
    + rewrite before_strings_reversed by (apply Hall; assumption).
      exact Hxy.
Qed.
End TableOrder.

Lemma sort_by_string_column_is_an_order_witness :
  Permutation
    (DataTable.sortedData code_unit_order (SortSamples.by_name true))
    (DataTable.filteredData (SortSamples.by_name true))
  /\ arranged
       (DataTable.compareRows code_unit_order (Some (str "name"))
          (DataTable.sortAsc (SortSamples.by_name true)))
       (DataTable.sortedData code_unit_order (SortSamples.by_name true))
  /\ Array_sort
       (DataTable.compareRows code_unit_order (Some (str "name"))
          (DataTable.sortAsc (SortSamples.by_name true)))
       (DataTable.sortedData code_unit_order (SortSamples.by_name true))
     = DataTable.sortedData code_unit_order (SortSamples.by_name true)
  /\ (forall x y,
        In x (DataTable.sortedData code_unit_order (SortSamples.by_name true)) ->
        In y (DataTable.sortedData code_unit_order (SortSamples.by_name true)) ->
        before
          (DataTable.compareRows code_unit_order (Some (str "name"))
             (DataTable.sortAsc (SortSamples.by_name true))) x y = true ->
        precedes x y
          (DataTable.sortedData code_unit_order (SortSamples.by_name true))
        /\ precedes y x
             (DataTable.sortedData code_unit_order
                (with_sortAsc
                   (negb (DataTable.sortAsc (SortSamples.by_name true)))
                   (SortSamples.by_name true)))).
Proof.
  apply (@sort_by_string_column_is_an_order code_unit_order (str "name")
           code_unit_order_asym code_unit_order_trans eq_refl
           (SortSamples.by_name true));
    reflexivity.
Defined.

(** The fruit table by name, ascending and descending. *)
Example sort_fruit_by_name :
  DataTable.sortedData code_unit_order (SortSamples.by_name true)
  = [ChartSamples.apple; ChartSamples.banana]
  /\ DataTable.sortedData code_unit_order (SortSamples.by_name false)
     = [ChartSamples.banana; ChartSamples.apple].
Proof. split; reflexivity. Qed.

(** ** What the components hold is sanitized *)

Lemma sanitize_sanitized (raw out : Row) :
  Sanitizer.sanitize raw = Normal out -> sanitized_row out = true.
Proof.
  intros H. unfold sanitized_row. apply andb_true_iff. split.
  - apply distinct_NoDup.
    apply (forEach_entry_NoDup _ _ _ H). constructor.
  - apply forallb_forall. intros w Hw. apply negb_true_iff.
    destruct (forEach_entry_values _ _ _ H w Hw) as [[] | (k & v & _ & E)].
    apply (sanitizeValue_no_object _ E).
Qed.

Lemma sanitizedData_sanitized (results_data : list Sanitizer.ParsedRow) :
  forall rows,
    Sanitizer.sanitizedData results_data = Normal rows ->
    forallb sanitized_row rows = true.
Proof.
  unfold Sanitizer.sanitizedData.
  induction results_data as [|row results IH]; simpl; intros rows H.
  - injection H as <-. reflexivity.
  - destruct (Sanitizer.sanitizeParsed row) as [r|] eqn:Er;
      simpl in H; [|discriminate].
    destruct (Array_map_throwing Sanitizer.sanitizeParsed results) as [rs|];
      simpl in H; [|discriminate].
    injection H as <-. simpl. rewrite (IH rs eq_refl), andb_true_r.
    destruct row as [raw|v]; simpl in Er.
    + apply (sanitize_sanitized _ Er).
    + injection Er as <-. reflexivity.
Qed.

(** X2: whatever the parser hands over, the records that the chart and
    the table hold after [complete] are sanitized: their keys are distinct and
    none of their values is an object. *)
Theorem components_hold_sanitized_records (isMounted : bool)
  (results_data : list Sanitizer.ParsedRow)
  (chart : ChartView.FetchState) (table : DataTable.State) :
  forallb sanitized_row (ChartView.data chart) = true ->
  forallb sanitized_row (DataTable.data table) = true ->
  forallb sanitized_row
    (ChartView.data (ChartView.complete isMounted results_data chart)) = true
  /\ forallb sanitized_row
       (DataTable.data (DataTable.complete isMounted results_data table)) = true.
Proof.
  intros Hc Ht. unfold ChartView.complete, DataTable.complete.
  destruct isMounted; simpl; [|split; assumption].
  destruct (Sanitizer.sanitizedData results_data) as [rows|] eqn:E; simpl.
  - split; apply (sanitizedData_sanitized _ E).
  - split; assumption.
Qed.

Lemma components_hold_sanitized_records_witness :
  forallb sanitized_row
    (ChartView.data
       (ChartView.complete true [Sanitizer.RowObject Samples.mixed]
          ChartView.initial)) = true
  /\ forallb sanitized_row
       (DataTable.data
          (DataTable.complete true [Sanitizer.RowObject Samples.mixed]
             DataTable.initial)) = true.
Proof.
  apply (components_hold_sanitized_records true
           [Sanitizer.RowObject Samples.mixed]
           ChartView.initial DataTable.initial);
    reflexivity.
Defined.

(** X3: a click on the header of the active sort column keeps the column
    and flips the ascending flag; a click on any other header selects that
    column and sorts ascending; neither changes which records pass the
    filter. *)
Theorem header_click_toggles_or_resets (header : JsString)
  (st : DataTable.State) :
  DataTable.sortField (DataTable.clickHeader header st) = Some header
  /\ (DataTable.sortField st = Some header ->
      DataTable.sortAsc (DataTable.clickHeader header st)
      = negb (DataTable.sortAsc st))
  /\ (DataTable.sortField st <> Some header ->
      DataTable.sortAsc (DataTable.clickHeader header st) = true)
  /\ DataTable.filteredData (DataTable.clickHeader header st)
     = DataTable.filteredData st.
Proof.
  split; [reflexivity|]. split; [|split; [|reflexivity]]; simpl.
  - intros ->. rewrite jsstr_eqb_refl. reflexivity.
  - intros Hn. destruct (DataTable.sortField st) as [current|]; [|reflexivity].
    destruct (jsstr_eqb current header) eqn:E; [|reflexivity].
    apply jsstr_eqb_eq in E. subst. contradiction Hn. reflexivity.
Qed.

(* ===================================================================== *)
(** * Further properties of the components *)
(* ===================================================================== *)

(** ** The layout of the chart *)

Lemma Array_map_from_length {A B : Type} (f : A -> N -> B) (l : list A) :
  forall i, List.length (Array_map_from f i l) = List.length l.
Proof.
  induction l as [|x l IH]; simpl; intros i; [reflexivity|].
  rewrite IH. reflexivity.
Qed.

Lemma Array_map_from_nth {A B : Type} (f : A -> N -> B) (l : list A) :
  forall i k x,
    nth_error l k = Some x ->
    nth_error (Array_map_from f i l) k = Some (f x (i + N.of_nat k)%N).
Proof.
  induction l as [|y l IH]; intros i [|k] x; simpl; try discriminate.
  - intros E. injection E as ->. rewrite N.add_0_r. reflexivity.
  - intros E. rewrite (IH (i + 1)%N k x E). f_equal. f_equal. lia.
Qed.

Lemma Array_map_from_map {A B C : Type} (f : A -> N -> B) (g : B -> C)
  (h : A -> C) (l : list A) :
  (forall x j, g (f x j) = h x) ->
  forall i, map g (Array_map_from f i l) = map h l.
Proof.
  intros H. induction l as [|x l IH]; simpl; intros i; [reflexivity|].
  rewrite H, IH. reflexivity.
Qed.

Lemma str_injective (a b : string) : str a = str b -> a = b.
Proof.
  unfold str. intros E.
  rewrite <- (string_of_list_ascii_of_string a),
          <- (string_of_list_ascii_of_string b).
  f_equal. revert E.
  generalize (list_ascii_of_string a) (list_ascii_of_string b).
  induction l as [|x l IH]; intros [|y l']; simpl; try discriminate;
    [reflexivity|].
  intros E. injection E as Exy E. f_equal; [|apply IH; assumption].
  rewrite <- (ascii_N_embedding x), <- (ascii_N_embedding y), Exy.
  reflexivity.
Qed.

Lemma decimal_injective (a b : N) : decimal a = decimal b -> a = b.
Proof.
  unfold decimal. intros E. apply str_injective in E.
  assert (Hn : forall n, N.to_uint n <> Decimal.Nil).
  { intros [|p]; [discriminate | apply DecimalPos.Unsigned.to_uint_nonnil]. }
  assert (Hu : Some (N.to_uint a) = Some (N.to_uint b)).
  { rewrite <- (NilZero.usu (N.to_uint a) (Hn a)),
            <- (NilZero.usu (N.to_uint b) (Hn b)), E. reflexivity. }
  injection Hu as Hu. apply DecimalN.Unsigned.to_uint_inj. exact Hu.
Qed.

Lemma hsl_injective (i j : N) : ChartView.hsl i = ChartView.hsl j -> i = j.
Proof.
  unfold ChartView.hsl. intros E.
  apply app_inv_head in E. apply app_inv_tail in E.
  apply decimal_injective in E. lia.
Qed.

Lemma colours_from (keys : list JsString) (series : JsString -> list (option JsNumber)) :
  forall i c,
    In c (map ChartView.Dataset.backgroundColor
            (Array_map_from
               (fun key j => {|
                  ChartView.Dataset.label := key;
                  ChartView.Dataset.data := series key;
                  ChartView.Dataset.backgroundColor := ChartView.hsl j |})
               i keys)) ->
    exists j, (i <= j)%N /\ c = ChartView.hsl j.
Proof.
  induction keys as [|k keys IH]; simpl; intros i c; [tauto|].
  intros [<- | Hin].
  - exists i. split; [lia | reflexivity].
  - destruct (IH _ _ Hin) as (j & Hj & ->). exists j. split; [lia | reflexivity].
Qed.

Lemma colours_NoDup (keys : list JsString) (series : JsString -> list (option JsNumber)) :
  forall i,
    NoDup (map ChartView.Dataset.backgroundColor
             (Array_map_from
                (fun key j => {|
                   ChartView.Dataset.label := key;
                   ChartView.Dataset.data := series key;
                   ChartView.Dataset.backgroundColor := ChartView.hsl j |})
                i keys)).
Proof.
  induction keys as [|k keys IH]; simpl; intros i; constructor.
  - intros Hin. destruct (colours_from _ _ _ _ Hin) as (j & Hj & E).
    apply hsl_injective in E. lia.
  - apply IH.
Qed.

(** X4: in the chart of a loaded dataset of sanitized records there is one
    label per record, "Row 1", "Row 2", ... in the order of the records;
    the series are those of the eligible keys of the first record, in the
    order of its keys; every series has one point per label; and the
    colours of the series, [hsl(0, ...)], [hsl(60, ...)], ... by position,
    are pairwise distinct. *)
Theorem chart_layout (st : ChartView.FetchState) (row0 : Row)
  (rest : list Row) (c : ChartView.ChartData) :
  ChartView.data st = row0 :: rest ->
  ChartView.loading st = false ->
  ChartView.error_set (ChartView.error st) = false ->
  forallb sanitized_row (ChartView.data st) = true ->
  ChartView.chartData st = Normal (Some c) ->
  List.length (ChartView.labels c) = List.length (ChartView.data st)
  /\ (forall i row,
        nth_error (ChartView.data st) i = Some row ->
        nth_error (ChartView.labels c) i
        = Some (str "Row " ++ decimal (N.of_nat i + 1)))
  /\ map ChartView.Dataset.label (ChartView.datasets c)
     = List.filter (ChartView.numeric_in row0) (Object_keys row0)
  /\ (forall ds,
        In ds (ChartView.datasets c) ->
        List.length (ChartView.Dataset.data ds)
        = List.length (ChartView.labels c))
  /\ (forall i ds,
        nth_error (ChartView.datasets c) i = Some ds ->
        ChartView.Dataset.backgroundColor ds
        = str "hsl(" ++ decimal (N.of_nat i * 60) ++ str ", 70%, 50%)")
  /\ NoDup (map ChartView.Dataset.backgroundColor (ChartView.datasets c)).
Proof.
  intros Hdata Hl He Hs Hc.
  rewrite (chartData_loaded st Hdata Hl He Hs) in Hc.
  fold (ChartView.numericKeys row0).
  destruct (ChartView.numericKeys row0) as [|k keys] eqn:Ek;
    [discriminate|].
  injection Hc as <-. cbn [ChartView.labels ChartView.datasets].
  unfold Array_mapi.
  split; [apply Array_map_from_length|].
  split.
  { intros i row Hrow.
    rewrite (Array_map_from_nth _ _ 0%N _ Hrow). reflexivity. }
  split.
  { rewrite Array_map_from_map with (h := fun key : JsString => key);
      [apply map_id | reflexivity]. }
  split.
  { intros ds Hin. apply Array_map_from_In in Hin.
    destruct Hin as (x & j & _ & ->). simpl.
    rewrite length_map, Array_map_from_length. reflexivity. }
  split.
  { intros i ds Hds.
    destruct (nth_error (k :: keys) i) as [key|] eqn:Ekey.
    - rewrite (Array_map_from_nth _ _ 0%N _ Ekey) in Hds.
      injection Hds as <-. reflexivity.
    - apply nth_error_None in Ekey.
      assert (Hd : nth_error
                     (Array_map_from
                        (fun key j => {|
                           ChartView.Dataset.label := key;
                           ChartView.Dataset.data :=
                             map (fun row => ChartView.point row key)
                                 (ChartView.data st);
                           ChartView.Dataset.backgroundColor := ChartView.hsl j |})
                        0%N (k :: keys)) i = None).
      { apply nth_error_None. rewrite Array_map_from_length. exact Ekey. }
      rewrite Hd in Hds. discriminate. }
  apply (colours_NoDup (k :: keys)
           (fun key => map (fun row => ChartView.point row key)
                           (ChartView.data st)) 0%N).
Qed.

Lemma chart_layout_witness :
  List.length
    (ChartView.labels
       {| ChartView.labels := [str "Row 1"; str "Row 2"];
          ChartView.datasets :=
            [ {| ChartView.Dataset.label := str "price";
                 ChartView.Dataset.data := [Some 1.5%float; None];
                 ChartView.Dataset.backgroundColor := str "hsl(0, 70%, 50%)" |} ]
       |})
  = List.length (ChartView.data ChartSamples.fruit).
Proof.
  apply (@chart_layout ChartSamples.fruit ChartSamples.apple
           [ChartSamples.banana]
           {| ChartView.labels := [str "Row 1"; str "Row 2"];
              ChartView.datasets :=
                [ {| ChartView.Dataset.label := str "price";
                     ChartView.Dataset.data := [Some 1.5%float; None];
                     ChartView.Dataset.backgroundColor :=
                       str "hsl(0, 70%, 50%)" |} ] |});
    reflexivity.
Defined.

(** X5: on a dataset of sanitized records [chartData] never throws, and it
    answers "no chart" exactly when the hook is loading, or holds a
    non-empty error message, or holds no record, or no value of the first
    record is eligible. *)
Theorem chart_absent_exactly (st : ChartView.FetchState) :
  forallb sanitized_row (ChartView.data st) = true ->
  (exists chart, ChartView.chartData st = Normal chart)
  /\ (ChartView.chartData st = Normal None
      <-> ChartView.loading st = true
          \/ ChartView.error_set (ChartView.error st) = true
          \/ ChartView.data st = []
          \/ exists row0 rest,
               ChartView.data st = row0 :: rest
               /\ forall key, ~ spec_eligible (obj_get row0 key)).
Proof.
  intros Hs.
  destruct (ChartView.loading st) eqn:Hl.
  { unfold ChartView.chartData. rewrite Hl. simpl.
    split; [eexists; reflexivity | split; [left|]; reflexivity]. }
  destruct (ChartView.error_set (ChartView.error st)) eqn:He.
  { unfold ChartView.chartData. rewrite Hl, He. simpl.
    split; [eexists; reflexivity | split; [right; left|]; reflexivity]. }
  destruct (ChartView.data st) as [|row0 rest] eqn:Hdata.
  { unfold ChartView.chartData. rewrite Hl, He, Hdata. simpl.
    split; [eexists; reflexivity | split; [right; right; left|]; reflexivity]. }
  rewrite <- Hdata in Hs.
  rewrite (chartData_loaded st Hdata Hl He Hs).
  split; [eexists; reflexivity|].
  assert (Hkeys : forall key,
             In key (ChartView.numericKeys row0)
             <-> spec_eligible (obj_get row0 key)).
  { intros key. unfold ChartView.numericKeys.
    rewrite filter_In, numeric_in_spec. split; [tauto|].
    intros H. split; [|assumption].
    apply obj_get_data_In, eligible_is_data, H. }
  destruct (ChartView.numericKeys row0) as [|k keys] eqn:Ek.
  - split; [|reflexivity]. intros _. right; right; right.
    exists row0, rest. split; [reflexivity|].
    intros key H. apply Hkeys in H. exact H.
  - split; [discriminate|].
    intros [H | [H | [H | (r & rs & E & H)]]]; try discriminate.
    injection E as <- <-. exfalso. apply (H k). apply Hkeys.
    left; reflexivity.
Qed.

Lemma chart_absent_exactly_witness :
  (exists chart, ChartView.chartData MoreSamples.chart_in_error = Normal chart)
  /\ (ChartView.chartData MoreSamples.chart_in_error = Normal None
      <-> ChartView.loading MoreSamples.chart_in_error = true
          \/ ChartView.error_set (ChartView.error MoreSamples.chart_in_error) = true
          \/ ChartView.data MoreSamples.chart_in_error = []
          \/ exists row0 rest,
               ChartView.data MoreSamples.chart_in_error = row0 :: rest
               /\ forall key, ~ spec_eligible (obj_get row0 key)).
Proof. apply (chart_absent_exactly MoreSamples.chart_in_error). reflexivity. Defined.

(** X6: in the chart of a loaded dataset whose records hold strings only
    (and distinct keys), as the parser makes them, no point of any series
    is [NaN]: a text that does not parse fully gives [null]. *)
Theorem chart_of_strings_has_no_NaN (st : ChartView.FetchState)
  (c : ChartView.ChartData) (ds : ChartView.Dataset.t) (p : JsNumber) :
  forallb (fun row => distinct (Object_keys row) && all_strings row)
    (ChartView.data st) = true ->
  ChartView.chartData st = Normal (Some c) ->
  In ds (ChartView.datasets c) ->
  In (Some p) (ChartView.Dataset.data ds) ->
  isNaN p = false.
Proof.
  intros Hrows Hc Hds Hp.
  assert (Hs : forallb sanitized_row (ChartView.data st) = true).
  { rewrite forallb_forall in *. intros row Hin. specialize (Hrows row Hin).
    apply andb_true_iff in Hrows. destruct Hrows as [Hd Ha].
    unfold sanitized_row. rewrite Hd. simpl.
    unfold all_strings in Ha. rewrite forallb_forall in *.
    intros v Hv. specialize (Ha v Hv). destruct v; try discriminate.
    reflexivity. }
  destruct (ChartView.loading st) eqn:Hl;
    [unfold ChartView.chartData in Hc; rewrite Hl in Hc; discriminate|].
  destruct (ChartView.error_set (ChartView.error st)) eqn:He;
    [unfold ChartView.chartData in Hc; rewrite Hl, He in Hc; discriminate|].
  destruct (ChartView.data st) as [|row0 rest] eqn:Hdata;
    [unfold ChartView.chartData in Hc; rewrite Hl, He, Hdata in Hc;
     discriminate|].
  rewrite <- Hdata in Hs.
  rewrite (chartData_loaded st Hdata Hl He Hs) in Hc.
  destruct (ChartView.numericKeys row0) as [|k keys]; [discriminate|].
  injection Hc as <-. cbn [ChartView.datasets] in Hds.
  unfold Array_mapi in Hds. apply Array_map_from_In in Hds.
  destruct Hds as (key & j & _ & ->). cbn [ChartView.Dataset.data] in Hp.
  apply in_map_iff in Hp. destruct Hp as (row & Hpoint & Hrow).
  rewrite Hdata in Hrow. rewrite <- Hdata in Hrow.
  rewrite forallb_forall in Hrows.
  assert (Hin : In row (ChartView.data st)) by exact Hrow.
  rewrite Hdata in Hin. specialize (Hrows row Hin).
  apply andb_true_iff in Hrows. destruct Hrows as [_ Ha].
  unfold ChartView.point in Hpoint.
  destruct (obj_get row key) as [| | |n| |s| | |] eqn:Ev; try discriminate.
  - exfalso. unfold all_strings in Ha. rewrite forallb_forall in Ha.
    assert (Hv : In (VNumber n) (Object_values row)).
    { apply (in_map snd) with (x := (key, VNumber n)).
      rewrite <- Ev. apply obj_get_data_value. left. eexists. exact Ev. }
    specialize (Ha _ Hv). discriminate.
  - destruct (isNaN (Number_ s)) eqn:En; simpl in Hpoint; [discriminate|].
    injection Hpoint as <-. exact En.
Qed.

Lemma chart_of_strings_has_no_NaN_witness : isNaN 1.5%float = false.
Proof.
  apply (@chart_of_strings_has_no_NaN ChartSamples.fruit
           {| ChartView.labels := [str "Row 1"; str "Row 2"];
              ChartView.datasets :=
                [ {| ChartView.Dataset.label := str "price";
                     ChartView.Dataset.data := [Some 1.5%float; None];
                     ChartView.Dataset.backgroundColor :=
                       str "hsl(0, 70%, 50%)" |} ] |}
           {| ChartView.Dataset.label := str "price";
              ChartView.Dataset.data := [Some 1.5%float; None];
              ChartView.Dataset.backgroundColor := str "hsl(0, 70%, 50%)" |}
           1.5%float);
    [reflexivity | reflexivity | left; reflexivity | left; reflexivity].
Defined.

(** ** Sanitizing twice *)

Section LoopIdentity.
Variable f : JsValue -> Completion JsValue.
Hypothesis f_keeps : forall v, is_object v = false -> f v = Normal v.

Lemma loop_identity (entries : list (JsString * JsValue)) :
  forall acc,
    NoDup (Object_keys acc ++ Object_keys entries) ->
    forallb (fun v => negb (is_object v)) (Object_values entries) = true ->
    Sanitizer.forEach_entry f entries acc = Normal (acc ++ entries).
Proof.
  induction entries as [|[k v] rest IH]; simpl; intros acc Hd Hv.
  - rewrite app_nil_r; reflexivity.
  - apply andb_true_iff in Hv. destruct Hv as [Hv Hrest].
    apply negb_true_iff in Hv. rewrite (f_keeps v Hv). simpl.
    rewrite obj_set_fresh.
    + rewrite IH; [rewrite <- app_assoc; reflexivity | | assumption].
      unfold Object_keys in *. rewrite map_app. simpl.
      rewrite <- app_assoc. exact Hd.
    + intros Hin. apply NoDup_remove_2 in Hd. apply Hd.
      apply in_or_app. left; assumption.
Qed.
End LoopIdentity.

Lemma sanitizeValue_keeps (v : JsValue) :
  is_object v = false -> Sanitizer.sanitizeValue v = Normal v.
Proof.
  intros H. rewrite sanitizeValue_cases. destruct v; try reflexivity.
  discriminate.
Qed.

Lemma sanitize_identity (row : Row) :
  sanitized_row row = true -> Sanitizer.sanitize row = Normal row.
Proof.
  unfold sanitized_row. rewrite andb_true_iff. intros [Hd Hv].
  apply distinct_NoDup in Hd.
  apply (loop_identity Sanitizer.sanitizeValue sanitizeValue_keeps row [] Hd Hv).
Qed.

(** X7: sanitizing is idempotent.  Whatever record the sanitizer returns,
    sanitizing it again, on the table or export path or with the loop of
    the chart, returns it unchanged; so the second pass that the chart and
    the export make over sanitized records changes nothing. *)
Theorem sanitize_is_idempotent (raw out : Row) :
  Sanitizer.sanitize raw = Normal out ->
  Sanitizer.sanitize out = Normal out
  /\ Home.sanitizeExported (Sanitizer.RowObject out) = Normal out
  /\ ChartView.sanitizeRow out = Normal out.
Proof.
  intros H. pose proof (sanitize_sanitized _ H) as Hs.
  split; [apply sanitize_identity; assumption|].
  split; [apply sanitize_identity; assumption|].
  apply chart_sanitizeRow_identity. assumption.
Qed.

Lemma sanitize_is_idempotent_witness :
  Sanitizer.sanitize
    [ (str "name", VString (str "Apple"));
      (str "icon", VString Sanitizer.REACT_ELEMENT);
      (str "__parsed_extra", VString (str "[7]"));
      (str "price", VString (str "1.5")) ]
  = Normal
      [ (str "name", VString (str "Apple"));
        (str "icon", VString Sanitizer.REACT_ELEMENT);
        (str "__parsed_extra", VString (str "[7]"));
        (str "price", VString (str "1.5")) ]
  /\ Home.sanitizeExported
       (Sanitizer.RowObject
          [ (str "name", VString (str "Apple"));
            (str "icon", VString Sanitizer.REACT_ELEMENT);
            (str "__parsed_extra", VString (str "[7]"));
            (str "price", VString (str "1.5")) ])
     = Normal
         [ (str "name", VString (str "Apple"));
           (str "icon", VString Sanitizer.REACT_ELEMENT);
           (str "__parsed_extra", VString (str "[7]"));
           (str "price", VString (str "1.5")) ]
  /\ ChartView.sanitizeRow
       [ (str "name", VString (str "Apple"));
         (str "icon", VString Sanitizer.REACT_ELEMENT);
         (str "__parsed_extra", VString (str "[7]"));
         (str "price", VString (str "1.5")) ]
     = Normal
         [ (str "name", VString (str "Apple"));
           (str "icon", VString Sanitizer.REACT_ELEMENT);
           (str "__parsed_extra", VString (str "[7]"));
           (str "price", VString (str "1.5")) ].
Proof. apply (@sanitize_is_idempotent Samples.mixed). reflexivity. Defined.

(** X8: a rendered element that leaks into a parsed row reaches the chart
    as the placeholder string, never as [null]: the hook has replaced it
    before [chartData] runs, the chart's own loop then leaves the record as
    it is, and the placeholder, which is no number, gives a [null] point. *)
Theorem leaked_element_reaches_chart_as_placeholder (raw out : Row)
  (key : JsString) (o : JsObject) :
  distinct (Object_keys raw) = true ->
  In (key, VObject o) raw ->
  has_typeof_marker o = true ->
  Sanitizer.sanitizeParsed (Sanitizer.RowObject raw) = Normal out ->
  ChartView.sanitizeRow out = Normal out
  /\ obj_get out key = VString (str "[React Element]")
  /\ ChartView.point out key = None.
Proof.
  intros Hd Hin Hm H. change (Sanitizer.sanitize raw = Normal out) in H.
  split; [apply chart_sanitizeRow_identity, (sanitize_sanitized _ H)|].
  apply distinct_NoDup in Hd.
  pose proof (@forEach_entry_get Sanitizer.sanitizeValue raw Hd [] out key
                (VObject o) H Hin) as E.
  rewrite sanitizeValue_cases, Hm in E. injection E as E.
  split; [symmetry; exact E|].
  unfold ChartView.point. rewrite <- E. reflexivity.
Qed.

Lemma leaked_element_reaches_chart_as_placeholder_witness :
  ChartView.sanitizeRow
    [ (str "name", VString (str "Apple"));
      (str "icon", VString Sanitizer.REACT_ELEMENT);
      (str "__parsed_extra", VString (str "[7]"));
      (str "price", VString (str "1.5")) ]
  = Normal
      [ (str "name", VString (str "Apple"));
        (str "icon", VString Sanitizer.REACT_ELEMENT);
        (str "__parsed_extra", VString (str "[7]"));
        (str "price", VString (str "1.5")) ]
  /\ obj_get
       [ (str "name", VString (str "Apple"));
         (str "icon", VString Sanitizer.REACT_ELEMENT);
         (str "__parsed_extra", VString (str "[7]"));
         (str "price", VString (str "1.5")) ]
       (str "icon") = VString (str "[React Element]")
  /\ ChartView.point
       [ (str "name", VString (str "Apple"));
         (str "icon", VString Sanitizer.REACT_ELEMENT);
         (str "__parsed_extra", VString (str "[7]"));
         (str "price", VString (str "1.5")) ]
       (str "icon") = None.
Proof.
  apply (@leaked_element_reaches_chart_as_placeholder Samples.mixed _
           (str "icon") Samples.element);
    [reflexivity | right; left; reflexivity | reflexivity | reflexivity].
Defined.

(** X9: the sanitizer keeps the shape of what the parser hands over: one
    record per parsed row, in the same order; a row that is a record with
    distinct keys keeps its keys in their order, and a row that is no
    object becomes the empty record. *)
Theorem sanitizedData_keeps_shape (results_data : list Sanitizer.ParsedRow)
  (rows : list Row) :
  Sanitizer.sanitizedData results_data = Normal rows ->
  List.length rows = List.length results_data
  /\ (forall i raw,
        nth_error results_data i = Some (Sanitizer.RowObject raw) ->
        distinct (Object_keys raw) = true ->
        exists out,
          nth_error rows i = Some out
          /\ Sanitizer.sanitize raw = Normal out
          /\ Object_keys out = Object_keys raw)
  /\ (forall i v,
        nth_error results_data i = Some (Sanitizer.RowOther v) ->
        nth_error rows i = Some []).
Proof.
  unfold Sanitizer.sanitizedData. revert rows.
  induction results_data as [|row results IH]; simpl; intros rows H.
  - injection H as <-. split; [reflexivity|].
    split; intros [|i]; discriminate.
  - destruct (Sanitizer.sanitizeParsed row) as [r|] eqn:Er;
      simpl in H; [|discriminate].
    destruct (Array_map_throwing Sanitizer.sanitizeParsed results) as [rs|];
      simpl in H; [|discriminate].
    injection H as <-. destruct (IH rs eq_refl) as (Hlen & Hobj & Hother).
    split; [simpl; rewrite Hlen; reflexivity|].
    split.
    + intros [|i] raw; simpl.
      * intros E Hd. injection E as ->. exists r.
        split; [reflexivity|]. split; [exact Er|].
        apply (sanitize_keeps_keys raw Hd Er).
      * apply Hobj.
    + intros [|i] v; simpl.
      * intros E. injection E as ->. simpl in Er. injection Er as <-.
        reflexivity.
      * apply Hother.
Qed.

Lemma sanitizedData_keeps_shape_witness :
  List.length [ChartSamples.apple; []]
  = List.length
      [Sanitizer.RowObject ChartSamples.apple; Sanitizer.RowOther VNull].
Proof.
  apply (@sanitizedData_keeps_shape
           [Sanitizer.RowObject ChartSamples.apple; Sanitizer.RowOther VNull]
           [ChartSamples.apple; []]).
  reflexivity.
Defined.

(** ** The table view *)

(** X10: whatever the filter, the sort column, the flag and the collation
    (also one that is no order), the table view is a rearrangement of the
    filtered records: it shows only records of the dataset that match the
    filter, each as often as the dataset holds it, never more rows than
    the dataset has, and no row twice if the dataset has none twice. *)
Theorem view_is_rearranged_selection
  (localeCompare : JsString -> JsString -> JsNumber) (st : DataTable.State) :
  Permutation (DataTable.sortedData localeCompare st)
              (DataTable.filteredData st)
  /\ (forall row,
        In row (DataTable.sortedData localeCompare st) ->
        In row (DataTable.data st)
        /\ DataTable.row_matches (DataTable.filter st) row = true)
  /\ List.length (DataTable.sortedData localeCompare st)
     <= List.length (DataTable.data st)
  /\ (NoDup (DataTable.data st) ->
      NoDup (DataTable.sortedData localeCompare st)).
Proof.
  pose proof (sortedData_Permutation localeCompare st) as Hperm.
  assert (Hsel : DataTable.filteredData st = []
                 \/ DataTable.filteredData st
                    = List.filter (DataTable.row_matches (DataTable.filter st))
                        (DataTable.data st)).
  { unfold DataTable.filteredData.
    destruct (DataTable.loading st || ChartView.error_set (DataTable.error st));
      [left; reflexivity|].
    destruct (DataTable.data st); [left | right]; reflexivity. }
  split; [exact Hperm|]. split; [|split].
  - intros row Hin. apply (Permutation_in _ Hperm) in Hin.
    destruct Hsel as [E | E]; rewrite E in Hin; [contradiction|].
    apply filter_In in Hin. exact Hin.
  - rewrite (Permutation_length Hperm).
    destruct Hsel as [E | E]; rewrite E; [simpl; lia|].
    clear. induction (DataTable.data st) as [|row rows IH]; simpl; [lia|].
    destruct (DataTable.row_matches (DataTable.filter st) row); simpl; lia.
  - intros Hd. apply (Permutation_NoDup (Permutation_sym Hperm)).
    destruct Hsel as [E | E]; rewrite E; [constructor|].
    apply NoDup_filter. exact Hd.
Qed.

(** X11: a column whose header is the empty string cannot be sorted by: a
    click on it makes it the sort column, but the comparator treats the
    empty name as no column, and the view stays the filtered records in
    source order, under either flag. *)
Theorem empty_header_never_sorts
  (localeCompare : JsString -> JsString -> JsNumber) (st : DataTable.State) :
  DataTable.sortField (DataTable.clickHeader [] st) = Some []
  /\ DataTable.sortedData localeCompare (DataTable.clickHeader [] st)
     = DataTable.filteredData st
  /\ DataTable.sortedData localeCompare
       (DataTable.clickHeader [] (DataTable.clickHeader [] st))
     = DataTable.filteredData st.
Proof.
  assert (H : forall s, DataTable.sortField s = Some [] ->
                        DataTable.sortedData localeCompare s
                        = DataTable.filteredData s).
  { intros s Hs. unfold DataTable.sortedData. rewrite Hs.
    destruct (DataTable.filteredData s) as [|row rows]; [reflexivity|].
    unfold Array_sort. rewrite fold_insert_unordered; reflexivity. }
  split; [reflexivity|]. split; rewrite H; reflexivity.
Qed.

(** *** Lower-casing twice *)

Ltac split_ranges :=
  repeat (match goal with
          | |- context [(?a <=? ?b)%N] => destruct (N.leb_spec a b)
          | |- context [(?a =? ?b)%N] => destruct (N.eqb_spec a b)
          end;
          cbn [andb negb orb]; cbv beta iota; try lia).

Lemma lower_unit_not_capital_sigma (c : N) :
  (lower_unit c =? CAPITAL_SIGMA)%N = false.
Proof.
  apply N.eqb_neq. unfold lower_unit, in_range, CAPITAL_SIGMA.
  split_ranges.
Qed.

Lemma lower_unit_idempotent (c : N) : lower_unit (lower_unit c) = lower_unit c.
Proof.
  unfold lower_unit at 2. unfold in_range.
  split_ranges; unfold lower_unit, in_range; split_ranges; reflexivity.
Qed.

Lemma lower_from_lowered (s : JsString) :
  forall before before',
    lower_from before' (lower_from before s) = lower_from before s.
Proof.
  induction s as [|c s IH]; intros before before'; [reflexivity|].
  cbn [lower_from].
  destruct (c =? CAPITAL_SIGMA)%N.
  - destruct (final_sigma before s); cbn [lower_from];
      rewrite IH; reflexivity.
  - cbn [lower_from]. rewrite lower_unit_not_capital_sigma,
      lower_unit_idempotent, IH. reflexivity.
Qed.

Lemma toLowerCase_idempotent (s : JsString) :
  toLowerCase (toLowerCase s) = toLowerCase s.
Proof. apply lower_from_lowered. Qed.

(** X12: the filter does not depend on the case it is typed in: a filter
    and its lower-cased form retain the same records, and so do any two
    filters with the same lower-cased form. *)
Theorem filter_ignores_case (st : DataTable.State) (f g : JsString) :
  DataTable.filteredData (DataTable.setFilter (toLowerCase f) st)
  = DataTable.filteredData (DataTable.setFilter f st)
  /\ (toLowerCase f = toLowerCase g ->
      DataTable.filteredData (DataTable.setFilter f st)
      = DataTable.filteredData (DataTable.setFilter g st)).
Proof.
  assert (H : forall a b, toLowerCase a = toLowerCase b ->
                DataTable.filteredData (DataTable.setFilter a st)
                = DataTable.filteredData (DataTable.setFilter b st)).
  { intros a b E. unfold DataTable.filteredData. simpl.
    destruct (DataTable.loading st || ChartView.error_set (DataTable.error st));
      [reflexivity|].
    destruct (DataTable.data st) as [|row rows]; [reflexivity|].
    apply filter_ext. intros r. unfold DataTable.row_matches.
    rewrite E. reflexivity. }
  split; [apply H, toLowerCase_idempotent | apply H].
Qed.

(** Typed in capitals, the filter finds the same row. *)
Example filter_BANANA :
  DataTable.filteredData
    (DataTable.setFilter (str "BANANA")
       (TableSamples.loaded [ChartSamples.apple; ChartSamples.banana]))
  = [ChartSamples.banana].
Proof. reflexivity. Qed.

(** Capitals with tonos and dialytika and the capital symbols have their
    small forms, and a letter with tonos is a cased letter in front of a
    final sigma. *)
Example lower_case_greek :
  toLowerCase TextSamples.ALPHA_TONOS_SIGMA = [0x3AC; 0x3C2]%N
  /\ toLowerCase TextSamples.IOTA_DIALYTIKA = [0x3CA; 0x3CE; 0x3D7; 0x3B8]%N
  /\ toLowerCase (toLowerCase TextSamples.ALPHA_TONOS_SIGMA)
     = toLowerCase TextSamples.ALPHA_TONOS_SIGMA.
Proof. repeat split. Qed.

(** ** The outcomes of an export *)

(** X13: an export with a source selected ends in exactly one of two ways,
    whatever the world answers and whatever errors were shown before:
    either no error is shown and exactly one file is downloaded, under the
    fixed name, or exactly one error is shown, which is not the selection
    error, and nothing is downloaded.  The source path and the colour mode
    are never touched. *)
Theorem export_ends_in_one_outcome (env : Home.Env) (st : Home.State) :
  jsstr_eqb (Home.csvFilePath st) [] = false ->
  Home.csvFilePath (fst (Home.handleExport env st)) = Home.csvFilePath st
  /\ Home.dark (fst (Home.handleExport env st)) = Home.dark st
  /\ Home.csvError (fst (Home.handleExport env st)) = None
  /\ ((errors_shown (fst (Home.handleExport env st)) = []
       /\ exists csv,
            downloads (snd (Home.handleExport env st))
            = [Home.Download (str "sustainity-data.csv") csv])
      \/ (exists message,
            errors_shown (fst (Home.handleExport env st)) = [message]
            /\ downloads (snd (Home.handleExport env st)) = [])).
Proof.
  intros Hpath. unfold Home.handleExport. rewrite Hpath.
  cbn [Home.csvFilePath Home.with_exportError Home.with_parseError
       Home.with_fetchError Home.with_csvError].
  destruct (Home.fetch env (Home.csvFilePath st)) as [message|response].
  { simpl. repeat split. right. eexists. split; reflexivity. }
  destruct (Home.ok response); cbn [negb];
    [|simpl; repeat split; right; eexists; split; reflexivity].
  destruct (Home.text response) as [csvText|message];
    [|simpl; repeat split; right; eexists; split; reflexivity].
  destruct (Home.Papa_parse env csvText) as [results|message];
    [|simpl; repeat split; right; eexists; split; reflexivity].
  unfold Home.complete.
  destruct (Home.results_errors results);
    [|simpl; repeat split; right; eexists; split; reflexivity].
  destruct (Array_map_throwing Home.sanitizeExported (Home.results_data results))
    as [rows|message]; cbn [bind];
    [|simpl; repeat split; right; eexists; split; reflexivity].
  destruct (Home.Parser_parse env rows) as [csv|message];
    [|simpl; repeat split; right; eexists; split; reflexivity].
  simpl. repeat split. left. split; [reflexivity|].
  exists csv. reflexivity.
Qed.

Lemma export_ends_in_one_outcome_witness :
  Home.csvFilePath
    (fst (Home.handleExport ExportSamples.missing_file Home.initial))
  = Home.csvFilePath Home.initial
  /\ Home.dark (fst (Home.handleExport ExportSamples.missing_file Home.initial))
     = Home.dark Home.initial
  /\ Home.csvError
       (fst (Home.handleExport ExportSamples.missing_file Home.initial)) = None
  /\ ((errors_shown
         (fst (Home.handleExport ExportSamples.missing_file Home.initial)) = []
       /\ exists csv,
            downloads
              (snd (Home.handleExport ExportSamples.missing_file Home.initial))
            = [Home.Download (str "sustainity-data.csv") csv])
      \/ (exists message,
            errors_shown
              (fst (Home.handleExport ExportSamples.missing_file Home.initial))
            = [message]
            /\ downloads
                 (snd (Home.handleExport ExportSamples.missing_file Home.initial))
               = [])).
Proof.
  apply (export_ends_in_one_outcome ExportSamples.missing_file Home.initial).
  reflexivity.
Defined.

(** X14: the exported file does not depend on what the table shows.  When
    the source is fetched, parsed without error, sanitized and serialized,
    the export downloads the serialization of all the records of the
    source, and clears the error fields, whatever the filter, the sort and
    the dataset of the table are. *)
Theorem export_ignores_the_table_view (env : Home.Env) (app : Home.App)
  (view : DataTable.State) (response : Home.Response) (csvText : JsString)
  (results : Home.ParseResults) (sanitizedData : list Row) (csv : JsString) :
  jsstr_eqb (Home.csvFilePath (Home.home app)) [] = false ->
  Home.fetch env (Home.csvFilePath (Home.home app))
  = Home.FetchResolved response ->
  Home.ok response = true ->
  Home.text response = Normal csvText ->
  Home.Papa_parse env csvText = Home.ParseComplete results ->
  Home.results_errors results = [] ->
  Array_map_throwing Home.sanitizeExported (Home.results_data results)
  = Normal sanitizedData ->
  Home.Parser_parse env sanitizedData = Normal csv ->
  snd (Home.click_export env (with_table view app))
  = [ Home.FetchRequest (Home.csvFilePath (Home.home app));
      Home.Download (str "sustainity-data.csv") csv ]
  /\ errors_shown (Home.home (fst (Home.click_export env (with_table view app))))
     = []
  /\ Home.table (fst (Home.click_export env (with_table view app))) = view
  /\ List.length sanitizedData = List.length (Home.results_data results).
Proof.
  intros Hpath Hfetch Hok Htext Hparse Herrors Hsanitize Hcsv.
  unfold Home.click_export, with_table. cbn [Home.home Home.table Home.chart].
  unfold Home.handleExport. rewrite Hpath.
  cbn [Home.csvFilePath Home.with_exportError Home.with_parseError
       Home.with_fetchError Home.with_csvError].
  rewrite Hfetch, Hok. cbn [negb]. rewrite Htext, Hparse.
  unfold Home.complete. rewrite Herrors, Hsanitize. cbn [bind].
  rewrite Hcsv. repeat split.
  clear - Hsanitize. revert sanitizedData Hsanitize.
  induction (Home.results_data results) as [|row rows IH]; simpl;
    intros sd H.
  - injection H as <-. reflexivity.
  - destruct (Home.sanitizeExported row); simpl in H; [|discriminate].
    destruct (Array_map_throwing Home.sanitizeExported rows) as [rs|];
      simpl in H; [|discriminate].
    injection H as <-. simpl. rewrite (IH rs eq_refl). reflexivity.
Qed.

Lemma export_ignores_the_table_view_witness :
  snd (Home.click_export (MoreSamples.exporting ExportSamples.parsed_fruit)
         (with_table
            (DataTable.setFilter (str "banana")
               (TableSamples.loaded [ChartSamples.apple; ChartSamples.banana]))
            ExportSamples.fresh))
  = [ Home.FetchRequest (Home.csvFilePath (Home.home ExportSamples.fresh));
      Home.Download (str "sustainity-data.csv") (str "csv") ]
  /\ errors_shown
       (Home.home
          (fst (Home.click_export
                  (MoreSamples.exporting ExportSamples.parsed_fruit)
                  (with_table
                     (DataTable.setFilter (str "banana")
                        (TableSamples.loaded
                           [ChartSamples.apple; ChartSamples.banana]))
                     ExportSamples.fresh)))) = []
  /\ Home.table
       (fst (Home.click_export
               (MoreSamples.exporting ExportSamples.parsed_fruit)
               (with_table
                  (DataTable.setFilter (str "banana")
                     (TableSamples.loaded
                        [ChartSamples.apple; ChartSamples.banana]))
                  ExportSamples.fresh)))
     = DataTable.setFilter (str "banana")
         (TableSamples.loaded [ChartSamples.apple; ChartSamples.banana])
  /\ List.length [ChartSamples.apple; ChartSamples.banana]
     = List.length (Home.results_data ExportSamples.parsed_fruit).
Proof.
  apply (@export_ignores_the_table_view
           (MoreSamples.exporting ExportSamples.parsed_fruit)
           ExportSamples.fresh
           (DataTable.setFilter (str "banana")
              (TableSamples.loaded [ChartSamples.apple; ChartSamples.banana]))
           {| Home.ok := true; Home.status := 200;
              Home.text := Normal (str "name,price") |}
           (str "name,price") ExportSamples.parsed_fruit
           [ChartSamples.apple; ChartSamples.banana] (str "csv"));
    reflexivity.
Defined.

(** ** Loading *)

Lemma includes_suffix (a b : JsString) : includes (a ++ b) b = true.
Proof. apply includes_spec. exists a, []. rewrite app_nil_r. reflexivity. Qed.

(** X15: when the source answers with a status that is not OK, both
    components end loading with the error "HTTP error! status: " followed
    by the status, keep the records they held, and show nothing of them:
    the chart is absent and the table view is empty. *)
Theorem load_refuses_bad_status
  (localeCompare : JsString -> JsString -> JsNumber)
  (world : Loader.World) (csvFilePath : JsString) (response : Home.Response)
  (chart : ChartView.FetchState) (table : DataTable.State) :
  Loader.fetch world csvFilePath = Home.FetchResolved response ->
  Home.ok response = false ->
  let chart' := Loader.chart_fetchData world true csvFilePath chart in
  let table' := Loader.table_fetchData world true csvFilePath table in
  let message := str "HTTP error! status: " ++ decimal (Home.status response) in
  ChartView.error chart' = Some message
  /\ DataTable.error table' = Some message
  /\ includes message (decimal (Home.status response)) = true
  /\ ChartView.loading chart' = false
  /\ DataTable.loading table' = false
  /\ ChartView.data chart' = ChartView.data chart
  /\ DataTable.data table' = DataTable.data table
  /\ ChartView.chartData chart' = Normal None
  /\ DataTable.sortedData localeCompare table' = [].
Proof.
  intros Hfetch Hok chart' table' message.
  assert (Ha : Loader.answer world csvFilePath = Loader.Failure message).
  { unfold Loader.answer. rewrite Hfetch, Hok. reflexivity. }
  unfold chart', table', Loader.chart_fetchData, Loader.table_fetchData.
  rewrite Ha.
  split; [reflexivity|]. split; [reflexivity|].
  split; [apply includes_suffix|]. repeat split.
Qed.

Lemma load_refuses_bad_status_witness :
  ChartView.error
    (Loader.chart_fetchData MoreSamples.unreachable true (str "/x.csv")
       ChartView.initial)
  = Some (str "HTTP error! status: " ++ decimal 404)
  /\ DataTable.error
       (Loader.table_fetchData MoreSamples.unreachable true (str "/x.csv")
          DataTable.initial)
     = Some (str "HTTP error! status: " ++ decimal 404)
  /\ includes (str "HTTP error! status: " ++ decimal 404) (decimal 404) = true
  /\ ChartView.loading
       (Loader.chart_fetchData MoreSamples.unreachable true (str "/x.csv")
          ChartView.initial) = false
  /\ DataTable.loading
       (Loader.table_fetchData MoreSamples.unreachable true (str "/x.csv")
          DataTable.initial) = false
  /\ ChartView.data
       (Loader.chart_fetchData MoreSamples.unreachable true (str "/x.csv")
          ChartView.initial) = ChartView.data ChartView.initial
  /\ DataTable.data
       (Loader.table_fetchData MoreSamples.unreachable true (str "/x.csv")
          DataTable.initial) = DataTable.data DataTable.initial
  /\ ChartView.chartData
       (Loader.chart_fetchData MoreSamples.unreachable true (str "/x.csv")
          ChartView.initial) = Normal None
  /\ DataTable.sortedData code_unit_order
       (Loader.table_fetchData MoreSamples.unreachable true (str "/x.csv")
          DataTable.initial) = [].
Proof.
  apply (@load_refuses_bad_status code_unit_order MoreSamples.unreachable
           (str "/x.csv")
           {| Home.ok := false; Home.status := 404; Home.text := Normal [] |}
           ChartView.initial DataTable.initial);
    reflexivity.
Defined.

(** X16: an error outlives the next source.  Loading never clears the
    error and never sets [loading] again: when a component holds a
    non-empty error message and a later source is fetched, parsed and
    sanitized without fault, the component stores the new records and
    still shows none of them, the chart being absent and the table view
    empty. *)
Theorem error_outlives_successful_load
  (localeCompare : JsString -> JsString -> JsNumber)
  (world : Loader.World) (csvFilePath : JsString)
  (results_data : list Sanitizer.ParsedRow) (rows : list Row)
  (chart : ChartView.FetchState) (table : DataTable.State) :
  ChartView.error_set (ChartView.error chart) = true ->
  ChartView.error_set (DataTable.error table) = true ->
  Loader.answer world csvFilePath = Loader.Rows results_data ->
  Sanitizer.sanitizedData results_data = Normal rows ->
  let chart' := Loader.chart_fetchData world true csvFilePath chart in
  let table' := Loader.table_fetchData world true csvFilePath table in
  ChartView.data chart' = rows
  /\ DataTable.data table' = rows
  /\ ChartView.error chart' = ChartView.error chart
  /\ DataTable.error table' = DataTable.error table
  /\ ChartView.chartData chart' = Normal None
  /\ DataTable.filteredData table' = []
  /\ DataTable.sortedData localeCompare table' = [].
Proof.
  intros Hc Ht Ha Hs chart' table'.
  unfold chart', table', Loader.chart_fetchData, Loader.table_fetchData.
  rewrite Ha. unfold ChartView.complete, DataTable.complete.
  cbn [negb]. rewrite Hs.
  unfold ChartView.chartData, DataTable.sortedData, DataTable.filteredData.
  cbn [ChartView.loading ChartView.error ChartView.data
       DataTable.loading DataTable.error DataTable.data].
  rewrite Hc, Ht. repeat split.
Qed.

Lemma error_outlives_successful_load_witness :
  ChartView.data
    (Loader.chart_fetchData (MoreSamples.serving ExportSamples.parsed_fruit)
       true (str "/x.csv") MoreSamples.chart_in_error)
  = [ChartSamples.apple; ChartSamples.banana]
  /\ DataTable.data
       (Loader.table_fetchData (MoreSamples.serving ExportSamples.parsed_fruit)
          true (str "/x.csv") MoreSamples.table_in_error)
     = [ChartSamples.apple; ChartSamples.banana]
  /\ ChartView.error
       (Loader.chart_fetchData (MoreSamples.serving ExportSamples.parsed_fruit)
          true (str "/x.csv") MoreSamples.chart_in_error)
     = ChartView.error MoreSamples.chart_in_error
  /\ DataTable.error
       (Loader.table_fetchData (MoreSamples.serving ExportSamples.parsed_fruit)
          true (str "/x.csv") MoreSamples.table_in_error)
     = DataTable.error MoreSamples.table_in_error
  /\ ChartView.chartData
       (Loader.chart_fetchData (MoreSamples.serving ExportSamples.parsed_fruit)
          true (str "/x.csv") MoreSamples.chart_in_error) = Normal None
  /\ DataTable.filteredData
       (Loader.table_fetchData (MoreSamples.serving ExportSamples.parsed_fruit)
          true (str "/x.csv") MoreSamples.table_in_error) = []
  /\ DataTable.sortedData code_unit_order
       (Loader.table_fetchData (MoreSamples.serving ExportSamples.parsed_fruit)
          true (str "/x.csv") MoreSamples.table_in_error) = [].
Proof.
  apply (@error_outlives_successful_load code_unit_order
           (MoreSamples.serving ExportSamples.parsed_fruit) (str "/x.csv")
           (Home.results_data ExportSamples.parsed_fruit)
           [ChartSamples.apple; ChartSamples.banana]
           MoreSamples.chart_in_error MoreSamples.table_in_error);
    reflexivity.
Defined.

(** X17: the components and the export treat the parser's row errors
    differently.  When the source is fetched and the parser completes with
    row errors, the table and the chart store the sanitized rows all the
    same, without an error of their own, while an export of the same
    source reports the parse error and downloads nothing. *)
Theorem row_errors_load_but_do_not_export (env : Home.Env) (app : Home.App)
  (response : Home.Response) (csvText : JsString)
  (results : Home.ParseResults) (rows : list Row)
  (chart : ChartView.FetchState) (table : DataTable.State) :
  jsstr_eqb (Home.csvFilePath (Home.home app)) [] = false ->
  Home.fetch env (Home.csvFilePath (Home.home app))
  = Home.FetchResolved response ->
  Home.ok response = true ->
  Home.text response = Normal csvText ->
  Home.Papa_parse env csvText = Home.ParseComplete results ->
  negb (Nat.eqb (List.length (Home.results_errors results)) 0) = true ->
  Sanitizer.sanitizedData (Home.results_data results) = Normal rows ->
  let path := Home.csvFilePath (Home.home app) in
  let chart' := Loader.chart_fetchData (world_of env) true path chart in
  let table' := Loader.table_fetchData (world_of env) true path table in
  ChartView.data chart' = rows
  /\ DataTable.data table' = rows
  /\ ChartView.error chart' = ChartView.error chart
  /\ DataTable.error table' = DataTable.error table
  /\ errors_shown (Home.home (fst (Home.click_export env app)))
     = [str "Error parsing CSV file."]
  /\ downloads (snd (Home.click_export env app)) = [].
Proof.
  intros Hpath Hfetch Hok Htext Hparse Herrors Hs path chart' table'.
  assert (Ha : Loader.answer (world_of env) path
               = Loader.Rows (Home.results_data results)).
  { unfold Loader.answer, world_of, path. cbn [Loader.fetch Loader.import_papaparse].
    rewrite Hfetch, Hok. cbn [negb]. rewrite Htext, Hparse. reflexivity. }
  unfold chart', table', Loader.chart_fetchData, Loader.table_fetchData.
  rewrite Ha. unfold ChartView.complete, DataTable.complete.
  cbn [negb]. rewrite Hs.
  unfold Home.click_export, Home.handleExport. rewrite Hpath.
  cbn [Home.csvFilePath Home.with_exportError Home.with_parseError
       Home.with_fetchError Home.with_csvError].
  rewrite Hfetch, Hok. cbn [negb]. rewrite Htext, Hparse.
  unfold Home.complete.
  destruct (Home.results_errors results) as [|e es]; [discriminate|].
  repeat split.
Qed.

Lemma row_errors_load_but_do_not_export_witness :
  ChartView.data
    (Loader.chart_fetchData
       (world_of (MoreSamples.exporting MoreSamples.parsed_with_errors)) true
       (Home.csvFilePath (Home.home ExportSamples.fresh)) ChartView.initial)
  = [ChartSamples.apple; SortSamples.short_y]
  /\ DataTable.data
       (Loader.table_fetchData
          (world_of (MoreSamples.exporting MoreSamples.parsed_with_errors)) true
          (Home.csvFilePath (Home.home ExportSamples.fresh)) DataTable.initial)
     = [ChartSamples.apple; SortSamples.short_y]
  /\ ChartView.error
       (Loader.chart_fetchData
          (world_of (MoreSamples.exporting MoreSamples.parsed_with_errors)) true
          (Home.csvFilePath (Home.home ExportSamples.fresh)) ChartView.initial)
     = ChartView.error ChartView.initial
  /\ DataTable.error
       (Loader.table_fetchData
          (world_of (MoreSamples.exporting MoreSamples.parsed_with_errors)) true
          (Home.csvFilePath (Home.home ExportSamples.fresh)) DataTable.initial)
     = DataTable.error DataTable.initial
  /\ errors_shown
       (Home.home
          (fst (Home.click_export
                  (MoreSamples.exporting MoreSamples.parsed_with_errors)
                  ExportSamples.fresh)))
     = [str "Error parsing CSV file."]
  /\ downloads
       (snd (Home.click_export
               (MoreSamples.exporting MoreSamples.parsed_with_errors)
               ExportSamples.fresh)) = [].
Proof.
  apply (@row_errors_load_but_do_not_export
           (MoreSamples.exporting MoreSamples.parsed_with_errors)
           ExportSamples.fresh
           {| Home.ok := true; Home.status := 200;
              Home.text := Normal (str "name,price") |}
           (str "name,price") MoreSamples.parsed_with_errors
           [ChartSamples.apple; SortSamples.short_y]
           ChartView.initial DataTable.initial);
    reflexivity.
Defined.

(** ** Choosing a file *)

Lemma endsWith_spec (s suffix : JsString) :
  FileUploader.endsWith s suffix = true <-> exists stem, s = stem ++ suffix.
Proof.
  unfold FileUploader.endsWith. rewrite startsWith_spec. split.
  - intros [post E]. exists (rev post).
    rewrite <- (rev_involutive s), E, rev_app_distr, rev_involutive.
    reflexivity.
  - intros [stem ->]. exists (rev stem). apply rev_app_distr.
Qed.

(** X18: the uploader hands a path to the page exactly when a file was
    chosen whose name ends in ".csv" (in lower case), whose text was read
    and is not empty, and for which a blob URL could be made; it then shows
    no error of its own, and the page takes the path and clears its four
    errors.  In every other case the page is left as it was; a file whose
    text is empty is passed over without any message. *)
Theorem upload_hands_over_exactly_csv_files
  (createObjectURL : JsString -> Completion JsString)
  (files : option FileUploader.File) (page : Home.State) :
  (forall filePath,
     FileUploader.selected (FileUploader.handleFileChange createObjectURL files)
     = Some filePath
     <-> exists file stem content,
           files = Some file
           /\ FileUploader.name file = stem ++ str ".csv"
           /\ FileUploader.readAsText file = Normal content
           /\ content <> []
           /\ createObjectURL content = Normal filePath)
  /\ (forall filePath,
        FileUploader.selected (FileUploader.handleFileChange createObjectURL files)
        = Some filePath ->
        FileUploader.error (FileUploader.handleFileChange createObjectURL files)
        = None
        /\ snd (FileUploader.upload createObjectURL files page)
           = {| Home.csvFilePath := filePath; Home.dark := Home.dark page;
                Home.csvError := None; Home.fetchError := None;
                Home.parseError := None; Home.exportError := None |})
  /\ (FileUploader.selected (FileUploader.handleFileChange createObjectURL files)
      = None ->
      snd (FileUploader.upload createObjectURL files page) = page)
  /\ (forall file,
        files = Some file ->
        FileUploader.endsWith (FileUploader.name file) (str ".csv") = true ->
        FileUploader.readAsText file = Normal [] ->
        FileUploader.handleFileChange createObjectURL files
        = {| FileUploader.error := None; FileUploader.selected := None |}).
Proof.
  split; [|split; [|split]].
  - intros filePath. unfold FileUploader.handleFileChange. split.
    + destruct files as [file|]; [|discriminate].
      destruct (FileUploader.endsWith (FileUploader.name file) (str ".csv"))
        eqn:Ends; [|discriminate].
      apply endsWith_spec in Ends. destruct Ends as [stem Hname].
      cbn [negb].
      destruct (FileUploader.readAsText file) as [content|] eqn:Hread;
        [|discriminate].
      unfold FileUploader.onload.
      destruct (jsstr_eqb content []) eqn:Hempty; [discriminate|].
      cbn [negb].
      destruct (createObjectURL content) as [url|] eqn:Hurl; [|discriminate].
      intros E. injection E as <-. exists file, stem, content.
      repeat split; try assumption. apply jsstr_eqb_neq. exact Hempty.
    + intros (file & stem & content & -> & Hname & Hread & Hne & Hurl).
      assert (Ends : FileUploader.endsWith (FileUploader.name file) (str ".csv")
                     = true)
        by (apply endsWith_spec; exists stem; exact Hname).
      rewrite Ends. cbn [negb]. rewrite Hread. unfold FileUploader.onload.
      apply jsstr_eqb_neq in Hne. rewrite Hne. cbn [negb]. rewrite Hurl.
      reflexivity.
  - intros filePath. unfold FileUploader.upload.
    cbn [snd]. intros E. rewrite E. split; [|reflexivity].
    revert E. unfold FileUploader.handleFileChange.
    destruct files as [file|]; [|discriminate].
    destruct (negb (FileUploader.endsWith (FileUploader.name file) (str ".csv")));
      [discriminate|].
    destruct (FileUploader.readAsText file) as [content|]; [|discriminate].
    unfold FileUploader.onload.
    destruct (negb (jsstr_eqb content [])); [|discriminate].
    destruct (createObjectURL content); [reflexivity | discriminate].
  - intros E. unfold FileUploader.upload. cbn [snd]. rewrite E. reflexivity.
  - intros file -> Ends Hread. unfold FileUploader.handleFileChange.
    rewrite Ends, Hread. reflexivity.
Qed.

(** The extension is compared as it is written: capitals are refused. *)
Example upload_examples :
  FileUploader.handleFileChange MoreSamples.blob_url (Some MoreSamples.prices_csv)
  = {| FileUploader.error := None;
       FileUploader.selected := Some (str "blob:http://localhost/1") |}
  /\ FileUploader.handleFileChange MoreSamples.blob_url
       (Some {| FileUploader.name := str "PRICES.CSV";
                FileUploader.readAsText := Normal (str "name,price") |})
     = {| FileUploader.error := Some (str "Please upload a CSV file");
          FileUploader.selected := None |}
  /\ FileUploader.handleFileChange MoreSamples.blob_url None
     = {| FileUploader.error := Some (str "Please select a file");
          FileUploader.selected := None |}.
Proof. repeat split. Qed.

(** X19: the chart and the table stay in step.  They start with the same
    empty dataset, and when both meet the same answer of the world, with
    their effects equally current, they again hold the same records, the
    same loading flag and the same error; an answer that arrives after the
    effect was cleaned up changes neither; and when they are in step and
    the table holds no record, the chart is absent. *)
Theorem chart_and_table_stay_in_step (world : Loader.World)
  (isMounted : bool) (csvFilePath : JsString)
  (chart : ChartView.FetchState) (table : DataTable.State) :
  agree ChartView.initial DataTable.initial
  /\ (agree chart table ->
      agree (Loader.chart_fetchData world isMounted csvFilePath chart)
            (Loader.table_fetchData world isMounted csvFilePath table))
  /\ Loader.chart_fetchData world false csvFilePath chart = chart
  /\ Loader.table_fetchData world false csvFilePath table = table
  /\ (agree chart table -> DataTable.data table = [] ->
      ChartView.chartData chart = Normal None).
Proof.
  unfold agree, Loader.chart_fetchData, Loader.table_fetchData.
  split; [repeat split|]. split; [|split; [|split]].
  - intros (Hd & Hl & He).
    destruct (Loader.answer world csvFilePath) as [rd|message];
      unfold ChartView.complete, DataTable.complete,
        Loader.chart_failed, Loader.table_failed;
      destruct isMounted; cbn [negb]; try (repeat split; assumption).
    destruct (Sanitizer.sanitizedData rd); repeat split; assumption.
  - destruct (Loader.answer world csvFilePath); reflexivity.
  - destruct (Loader.answer world csvFilePath); reflexivity.
  - intros (Hd & _ & _) Hempty. unfold ChartView.chartData.
    rewrite Hd, Hempty.
    destruct (ChartView.loading chart || ChartView.error_set (ChartView.error chart));
      reflexivity.
Qed.
